(** * LeNet-5 (posts/lenet.ipynb): shape contract and layer numerics

    A shallow embedding of the model definition of the notebook: the
    classes [LenetPool], [LenetSigmoid] and [Lenet], and the function
    [run_tests].  The PyTorch building blocks the notebook calls
    ([nn.Linear], [nn.Conv2d], [nn.LPPool2d], [nn.Tanh], [nn.Flatten],
    [nn.Sequential]) are modelled after their documented behaviour.

    Tensor entries are real numbers: the arithmetic of the numeric backend
    is idealised, rounding is not modelled.  A tensor is a shape together
    with a function from multi-indices to entries; every operation first
    checks shapes (raising where the backend raises) and then computes. *)

From Stdlib Require Import List ZArith Reals Lra Lia String Bool.
Import ListNotations.

Open Scope string_scope.
Open Scope list_scope.
Open Scope R_scope.

(* ================================================================== *)
(** ** Exceptions *)

(** The Python exceptions the backend raises on the paths modelled. *)
Inductive exn : Type :=
| RuntimeError
| IndexError.

Inductive result (A : Type) : Type :=
| Ok (a : A)
| Raise (e : exn).

Arguments Ok {A} a.
Arguments Raise {A} e.

Definition bind {A B : Type} (r : result A) (k : A -> result B) : result B :=
  match r with
  | Ok a => k a
  | Raise e => Raise e
  end.

Definition fmap {A B : Type} (f : A -> B) (r : result A) : result B :=
  match r with
  | Ok a => Ok (f a)
  | Raise e => Raise e
  end.

Declare Scope result_scope.
Delimit Scope result_scope with result.
Notation "x <- r ;; k" := (bind r (fun x => k))
  (at level 61, r at next level, right associativity) : result_scope.
Open Scope result_scope.

(* ================================================================== *)
(** ** Tensors *)

Record Tensor : Type := mkTensor {
  shape : list nat;
  data : list nat -> R
}.

(** [torch.zeros(shape)]. *)
Definition zeros (s : list nat) : Tensor := mkTensor s (fun _ => 0).

(** Number of entries of a tensor of the given shape. *)
Definition numel (s : list nat) : nat := fold_right Nat.mul 1%nat s.

(** A multi-index addresses an entry of a tensor of shape [s]. *)
Definition in_bounds (idx s : list nat) : Prop := Forall2 lt idx s.

(** Sum of [f 0 .. f (n-1)]. *)
Fixpoint Rsum (n : nat) (f : nat -> R) : R :=
  match n with
  | O => 0
  | S m => Rsum m f + f m
  end.

(** Allocation of a parameter tensor ([torch.empty] followed by the
    initialiser): a negative dimension is refused.  [init] gives the
    initial entries. *)
Definition torch_empty (dims : list Z) (init : list nat -> R) : result Tensor :=
  if forallb (fun d => (0 <=? d)%Z) dims
  then Ok (mkTensor (map Z.to_nat dims) init)
  else Raise RuntimeError.

(** Initial values of the parameters, by parameter name: the random
    initialisation is an input of the model. *)
Definition ParamInit : Type := string -> list nat -> R.

(* ================================================================== *)
(** ** nn.Linear *)

Record Linear : Type := mkLinear {
  in_features : Z;
  out_features : Z;
  weight : Tensor;          (* shape (out_features, in_features) *)
  bias : option Tensor      (* shape (out_features), absent with bias=False *)
}.

(** [nn.Linear(in_features, out_features, bias)]. *)
Definition Linear_init (in_f out_f : Z) (with_bias : bool)
    (w0 b0 : list nat -> R) : result Linear :=
  w <- torch_empty [out_f; in_f] w0 ;;
  if with_bias
  then b <- torch_empty [out_f] b0 ;; Ok (mkLinear in_f out_f w (Some b))
  else Ok (mkLinear in_f out_f w None).

(** Shape of [F.linear(input, weight, bias)]: the last axis of the input
    must have width [in_features] and is replaced by [out_features]. *)
Definition Linear_shape (l : Linear) (s : list nat) : result (list nat) :=
  match s with
  | [] => Raise RuntimeError
  | _ :: _ =>
      if Nat.eqb (last s 0%nat) (nth 1 (shape (weight l)) 0%nat)
      then Ok (removelast s ++ [nth 0 (shape (weight l)) 0%nat])
      else Raise RuntimeError
  end.

(** Entries of [x W^T + b]. *)
Definition Linear_data (l : Linear) (x : Tensor) : list nat -> R :=
  fun idx =>
    let j := last idx 0%nat in
    let pre := removelast idx in
    Rsum (nth 1 (shape (weight l)) 0%nat)
         (fun k => data x (pre ++ [k]) * data (weight l) [j; k])
    + match bias l with
      | Some b => data b [j]
      | None => 0
      end.

Definition Linear_forward (l : Linear) (x : Tensor) : result Tensor :=
  s <- Linear_shape l (shape x) ;;
  Ok (mkTensor s (Linear_data l x)).

(* ================================================================== *)
(** ** Elementwise operations *)

Definition tensor_map (f : R -> R) (x : Tensor) : Tensor :=
  mkTensor (shape x) (fun idx => f (data x idx)).

(** Elementwise product of two tensors of one shape. *)
Definition tensor_mul (x y : Tensor) : Tensor :=
  mkTensor (shape x) (fun idx => data x idx * data y idx).

(** [torch.sign]. *)
Definition sign (x : R) : R :=
  if Rlt_dec 0 x then 1 else if Rlt_dec x 0 then -1 else 0.

(** [relu]. *)
Definition relu (x : R) : R := Rmax 0 x.

(** [x.pow(p)] for a scalar exponent: the identity at exponent 1, otherwise
    the real power (by [exp] and [ln], for a positive base). *)
Definition pow (x p : R) : R :=
  if Req_dec_T p 1 then x else Rpower x p.

(** [nn.Tanh]: never raises, keeps the shape. *)
Definition Tanh_forward (x : Tensor) : result Tensor :=
  Ok (tensor_map tanh x).

(* ================================================================== *)
(** ** nn.Conv2d (stride 1, no padding, no dilation, one group, bias) *)

Record Conv2d : Type := mkConv2d {
  conv_weight : Tensor;     (* shape (out_channels, in_channels, k, k) *)
  conv_bias : Tensor        (* shape (out_channels) *)
}.

(** [nn.Conv2d(in_channels, out_channels, kernel_size)]. *)
Definition Conv2d_init (in_c out_c k : Z) (w0 b0 : list nat -> R)
    : result Conv2d :=
  w <- torch_empty [out_c; in_c; k; k] w0 ;;
  b <- torch_empty [out_c] b0 ;;
  Ok (mkConv2d w b).

Definition conv_out (c : Conv2d) : nat := nth 0 (shape (conv_weight c)) 0%nat.
Definition conv_in (c : Conv2d) : nat := nth 1 (shape (conv_weight c)) 0%nat.
Definition conv_kh (c : Conv2d) : nat := nth 2 (shape (conv_weight c)) 0%nat.
Definition conv_kw (c : Conv2d) : nat := nth 3 (shape (conv_weight c)) 0%nat.

(** The input is (N, C, H, W) or (C, H, W); C must be the layer's input
    channel count and the kernel must fit. *)
Definition Conv2d_chw (c : Conv2d) (ch h w : nat) : result (list nat) :=
  if negb (Nat.eqb ch (conv_in c)) then Raise RuntimeError
  else if (h <? conv_kh c)%nat || (w <? conv_kw c)%nat then Raise RuntimeError
  else Ok [conv_out c; (h - conv_kh c + 1)%nat; (w - conv_kw c + 1)%nat].

Definition Conv2d_shape (c : Conv2d) (s : list nat) : result (list nat) :=
  match s with
  | [ch; h; w] => Conv2d_chw c ch h w
  | [n; ch; h; w] => fmap (cons n) (Conv2d_chw c ch h w)
  | _ => Raise RuntimeError
  end.

(** Cross-correlation with the kernel plus the bias of the output channel. *)
Definition Conv2d_data (c : Conv2d) (x : Tensor) : list nat -> R :=
  fun idx =>
    match rev idx with
    | j :: i :: o :: rpre =>
        data (conv_bias c) [o]
        + Rsum (conv_in c) (fun ci =>
            Rsum (conv_kh c) (fun di =>
              Rsum (conv_kw c) (fun dj =>
                data (conv_weight c) [o; ci; di; dj]
                * data x (rev rpre ++ [ci; (i + di)%nat; (j + dj)%nat]))))
    | _ => 0
    end.

Definition Conv2d_forward (c : Conv2d) (x : Tensor) : result Tensor :=
  s <- Conv2d_shape c (shape x) ;;
  Ok (mkTensor s (Conv2d_data c x)).

(* ================================================================== *)
(** ** nn.LPPool2d *)

(** Output length of a pooling axis: floor((n - k) / s) + 1 (no padding,
    ceil_mode off); the kernel and the stride must be positive and the
    kernel must fit. *)
Definition pool_out (n k s : nat) : result nat :=
  if (k =? 0)%nat || (s =? 0)%nat then Raise RuntimeError
  else if (n <? k)%nat then Raise RuntimeError
  else Ok ((n - k) / s + 1)%nat.

Definition pool_hw (k s h w : nat) : result (list nat) :=
  h' <- pool_out h k s ;;
  w' <- pool_out w k s ;;
  Ok [h'; w'].

Definition avg_pool2d_shape (k s : nat) (sh : list nat) : result (list nat) :=
  match sh with
  | [c; h; w] => fmap (cons c) (pool_hw k s h w)
  | [n; c; h; w] => fmap (fun hw => n :: c :: hw) (pool_hw k s h w)
  | _ => Raise RuntimeError
  end.

(** Mean of the k x k window that starts at (i*s, j*s). *)
Definition avg_pool2d_data (k s : nat) (x : Tensor) : list nat -> R :=
  fun idx =>
    match rev idx with
    | j :: i :: rpre =>
        Rsum k (fun di =>
          Rsum k (fun dj =>
            data x (rev rpre ++ [(i * s + di)%nat; (j * s + dj)%nat])))
        / INR (k * k)
    | _ => 0
    end.

(** [F.avg_pool2d(input, kernel_size, stride, 0, ceil_mode=False)]. *)
Definition avg_pool2d (x : Tensor) (k s : nat) : result Tensor :=
  sh <- avg_pool2d_shape k s (shape x) ;;
  Ok (mkTensor sh (avg_pool2d_data k s x)).

(** [F.lp_pool2d]:
      out = avg_pool2d(input.pow(norm_type), kernel_size, stride, 0, ceil_mode)
      return (sign(out) * relu(abs(out))).mul(kw * kh).pow(1.0 / norm_type) *)
Definition lp_pool2d (x : Tensor) (norm_type : R) (kernel_size stride : nat)
    : result Tensor :=
  out <- avg_pool2d (tensor_map (fun v => pow v norm_type) x)
                    kernel_size stride ;;
  Ok (tensor_map (fun v => pow v (1 / norm_type))
        (tensor_map (fun v => v * INR (kernel_size * kernel_size))
           (tensor_mul (tensor_map sign out)
                       (tensor_map relu (tensor_map Rabs out))))).

Record LPPool2d : Type := mkLPPool2d {
  norm_type : R;
  kernel_size : nat;
  stride : nat
}.

Definition LPPool2d_forward (p : LPPool2d) (x : Tensor) : result Tensor :=
  lp_pool2d x (norm_type p) (kernel_size p) (stride p).

(* ================================================================== *)
(** ** nn.Flatten (start_dim = 1, end_dim = -1) *)

(** Multi-index of the entry at row-major position [f]. *)
Fixpoint unravel (dims : list nat) (f : nat) : list nat :=
  match dims with
  | [] => []
  | _ :: ds => (f / numel ds)%nat :: unravel ds (f mod numel ds)
  end.

Definition Flatten_shape (s : list nat) : result (list nat) :=
  match s with
  | n :: d :: ds => Ok [n; numel (d :: ds)]
  | _ => Raise IndexError
  end.

Definition Flatten_data (x : Tensor) : list nat -> R :=
  fun idx =>
    match idx with
    | [n; f] => data x (n :: unravel (tl (shape x)) f)
    | _ => 0
    end.

Definition Flatten_forward (x : Tensor) : result Tensor :=
  s <- Flatten_shape (shape x) ;;
  Ok (mkTensor s (Flatten_data x)).

(* ================================================================== *)
(** ** nn.Sequential *)

(** [for module in self: input = module(input)]; an exception of a module
    ends the loop. *)
Fixpoint Sequential_forward {M : Type} (call : M -> Tensor -> result Tensor)
    (modules : list M) (input : Tensor) : result Tensor :=
  match modules with
  | [] => Ok input
  | m :: rest =>
      match call m input with
      | Ok y => Sequential_forward call rest y
      | Raise e => Raise e
      end
  end.

(** The backend modules used as children of the notebook's classes. *)
Inductive TorchModule : Type :=
| M_Conv2d (c : Conv2d)
| M_Linear (l : Linear)
| M_LPPool2d (p : LPPool2d)
| M_Tanh
| M_Flatten.

Definition TorchModule_call (m : TorchModule) (x : Tensor) : result Tensor :=
  match m with
  | M_Conv2d c => Conv2d_forward c x
  | M_Linear l => Linear_forward l x
  | M_LPPool2d p => LPPool2d_forward p x
  | M_Tanh => Tanh_forward x
  | M_Flatten => Flatten_forward x
  end.

(* ================================================================== *)
(** ** class LenetPool *)

(** [self.sum_pool], [self.linear] and [self.layers]. *)
Record LenetPool : Type := mkLenetPool {
  sum_pool : LPPool2d;
  linear : Linear;
  pool_layers : list TorchModule
}.

(** [LenetPool.__init__(kernel_size, sum_stride, in_features, out_features)]:
      self.sum_pool = nn.LPPool2d(1, kernel_size, stride=sum_stride)
      self.linear = nn.Linear(in_features, out_features)
      self.layers = nn.Sequential(self.sum_pool, self.linear) *)
Definition LenetPool_init (kernel_size sum_stride : nat)
    (in_features out_features : Z) (w0 b0 : list nat -> R)
    : result LenetPool :=
  let sum_pool := mkLPPool2d 1 kernel_size sum_stride in
  linear <- Linear_init in_features out_features true w0 b0 ;;
  Ok (mkLenetPool sum_pool linear [M_LPPool2d sum_pool; M_Linear linear]).

(** [LenetPool.forward]: [return self.layers(x)]. *)
Definition LenetPool_forward (p : LenetPool) (x : Tensor) : result Tensor :=
  Sequential_forward TorchModule_call (pool_layers p) x.

(* ================================================================== *)
(** ** class LenetSigmoid *)

(** [self.S] and [self.A]; [self.act] is [nn.Tanh()], which holds no
    data.  [A] is a plain number, not a parameter tensor. *)
Record LenetSigmoid : Type := mkLenetSigmoid {
  S_ : Linear;
  A_ : R
}.

(** [LenetSigmoid.__init__(in_features, out_features)]:
      self.S = nn.Linear(in_features, out_features, bias=False)
      self.act = nn.Tanh()
      self.A = 1.7159 *)
Definition LenetSigmoid_init (in_features out_features : Z)
    (w0 : list nat -> R) : result LenetSigmoid :=
  S <- Linear_init in_features out_features false w0 (fun _ => 0) ;;
  Ok (mkLenetSigmoid S (17159 / 10000)).

(** [LenetSigmoid.forward]:
      x = self.S(x); x = self.act(x); x = self.A*x; return x *)
Definition LenetSigmoid_forward (m : LenetSigmoid) (x : Tensor)
    : result Tensor :=
  x1 <- Linear_forward (S_ m) x ;;
  x2 <- Tanh_forward x1 ;;
  Ok (tensor_map (fun v => A_ m * v) x2).

(* ================================================================== *)
(** ** class Lenet *)

(** The kinds of module that occur in [Lenet.layers]. *)
Inductive Module : Type :=
| Torch (m : TorchModule)
| Pool (m : LenetPool)
| Sigmoid (m : LenetSigmoid).

(** [module(input)]. *)
Definition Module_call (m : Module) (x : Tensor) : result Tensor :=
  match m with
  | Torch t => TorchModule_call t x
  | Pool p => LenetPool_forward p x
  | Sigmoid s => LenetSigmoid_forward s x
  end.

(** [module.__class__.__name__]. *)
Definition class_name (m : Module) : string :=
  match m with
  | Torch (M_Conv2d _) => "Conv2d"
  | Torch (M_Linear _) => "Linear"
  | Torch (M_LPPool2d _) => "LPPool2d"
  | Torch M_Tanh => "Tanh"
  | Torch M_Flatten => "Flatten"
  | Pool _ => "LenetPool"
  | Sigmoid _ => "LenetSigmoid"
  end.

Record Lenet : Type := mkLenet {
  c1 : Conv2d;  a1 : LenetSigmoid;
  s2 : LenetPool;  a2 : LenetSigmoid;
  c3 : Conv2d;  a3 : LenetSigmoid;
  s4 : LenetPool;  a4 : LenetSigmoid;
  f5 : Linear;  a5 : LenetSigmoid;
  f6 : Linear;  a6 : LenetSigmoid;
  f7 : Linear;
  layers : list Module
}.

(** [Lenet.__init__(num_classes)]. *)
Definition Lenet_init (num_classes : Z) (init : ParamInit) : result Lenet :=
  (* Convolutional block *)
  c1 <- Conv2d_init 1 6 5 (init "c1.weight") (init "c1.bias") ;;
  a1 <- LenetSigmoid_init 28 28 (init "a1.S.weight") ;;
  (* Pooling block *)
  s2 <- LenetPool_init 2 2 14 14
          (init "s2.linear.weight") (init "s2.linear.bias") ;;
  a2 <- LenetSigmoid_init 14 14 (init "a2.S.weight") ;;
  (* Convolutional block *)
  c3 <- Conv2d_init 6 16 5 (init "c3.weight") (init "c3.bias") ;;
  a3 <- LenetSigmoid_init 10 10 (init "a3.S.weight") ;;
  (* Pooling block *)
  s4 <- LenetPool_init 2 2 5 5
          (init "s4.linear.weight") (init "s4.linear.bias") ;;
  a4 <- LenetSigmoid_init 5 5 (init "a4.S.weight") ;;
  (* Fully connected block *)
  f5 <- Linear_init 400 120 true (init "f5.weight") (init "f5.bias") ;;
  a5 <- LenetSigmoid_init 120 120 (init "a5.S.weight") ;;
  (* Fully connected block *)
  f6 <- Linear_init 120 84 true (init "f6.weight") (init "f6.bias") ;;
  a6 <- LenetSigmoid_init 84 84 (init "a6.S.weight") ;;
  (* Output block *)
  f7 <- Linear_init 84 num_classes true (init "f7.weight") (init "f7.bias") ;;
  (* Wrap all layers in a Sequential block *)
  Ok (mkLenet c1 a1 s2 a2 c3 a3 s4 a4 f5 a5 f6 a6 f7
        [Torch (M_Conv2d c1); Sigmoid a1;
         Pool s2; Sigmoid a2;
         Torch (M_Conv2d c3); Sigmoid a3;
         Pool s4; Sigmoid a4;
         Torch M_Flatten;
         Torch (M_Linear f5); Sigmoid a5;
         Torch (M_Linear f6); Sigmoid a6;
         Torch (M_Linear f7)]).

(** [Lenet.forward]: [return self.layers(x)]. *)
Definition Lenet_forward (model : Lenet) (x : Tensor) : result Tensor :=
  Sequential_forward Module_call (layers model) x.

(* ================================================================== *)
(** ** run_tests *)

(** What [print(layer.__class__.__name__, ':', x.shape)] writes. *)
Definition Line : Type := (string * list nat)%type.

(** The loop of [run_tests]: apply each layer, print the summary.  The
    result is the lines printed and the value returned or the exception. *)
Fixpoint run_tests_loop (ls : list Module) (x : Tensor) (out : list Line)
    : list Line * result Tensor :=
  match ls with
  | [] => (out, Ok x)
  | layer :: rest =>
      match Module_call layer x with
      | Ok y => run_tests_loop rest y (out ++ [(class_name layer, shape y)])
      | Raise e => (out, Raise e)
      end
  end.

(** [run_tests(shape, num_classes)]; [randn] holds the entries drawn by
    [torch.randn(shape)] and [init] the initial parameters. *)
Definition run_tests (shp : list Z) (num_classes : Z)
    (randn : list nat -> R) (init : ParamInit)
    : list Line * result Tensor :=
  match torch_empty shp randn with
  | Raise e => ([], Raise e)
  | Ok x =>
      match Lenet_init num_classes init with
      | Raise e => ([], Raise e)
      | Ok model => run_tests_loop (layers model) x []
      end
  end.

(* ================================================================== *)
(** ** Shapes alone

    Whether a module raises, and the shape of what it returns, depend on
    the shape of its input only.  The functions below are the shape parts
    of the modules; [*_forward_shape] relate them to the forward passes. *)

Definition LPPool2d_shape (p : LPPool2d) (s : list nat) : result (list nat) :=
  avg_pool2d_shape (kernel_size p) (stride p) s.

Definition TorchModule_shape (m : TorchModule) (s : list nat)
    : result (list nat) :=
  match m with
  | M_Conv2d c => Conv2d_shape c s
  | M_Linear l => Linear_shape l s
  | M_LPPool2d p => LPPool2d_shape p s
  | M_Tanh => Ok s
  | M_Flatten => Flatten_shape s
  end.

Fixpoint Sequential_shape {M : Type} (sh : M -> list nat -> result (list nat))
    (modules : list M) (s : list nat) : result (list nat) :=
  match modules with
  | [] => Ok s
  | m :: rest =>
      match sh m s with
      | Ok s' => Sequential_shape sh rest s'
      | Raise e => Raise e
      end
  end.

Definition Module_shape (m : Module) (s : list nat) : result (list nat) :=
  match m with
  | Torch t => TorchModule_shape t s
  | Pool p => Sequential_shape TorchModule_shape (pool_layers p) s
  | Sigmoid a => Linear_shape (S_ a) s
  end.

Fixpoint shape_loop (ls : list Module) (s : list nat) (out : list Line)
    : list Line * result (list nat) :=
  match ls with
  | [] => (out, Ok s)
  | layer :: rest =>
      match Module_shape layer s with
      | Ok s' => shape_loop rest s' (out ++ [(class_name layer, s')])
      | Raise e => (out, Raise e)
      end
  end.

(** The network [Lenet.__init__] builds when no allocation is refused. *)
Definition Lenet_build (num_classes : Z) (init : ParamInit) : Lenet :=
  let lin i o w b :=
    mkLinear i o (mkTensor [Z.to_nat o; Z.to_nat i] (init w))
             (Some (mkTensor [Z.to_nat o] (init b))) in
  let act n w :=
    mkLenetSigmoid
      (mkLinear n n (mkTensor [Z.to_nat n; Z.to_nat n] (init w)) None)
      (17159 / 10000) in
  let pool n w b :=
    mkLenetPool (mkLPPool2d 1 2 2) (lin n n w b)
                [M_LPPool2d (mkLPPool2d 1 2 2); M_Linear (lin n n w b)] in
  let conv i o w b :=
    mkConv2d (mkTensor [o; i; 5; 5]%nat (init w)) (mkTensor [o] (init b)) in
  let c1 := conv 1%nat 6%nat "c1.weight" "c1.bias" in
  let a1 := act 28%Z "a1.S.weight" in
  let s2 := pool 14%Z "s2.linear.weight" "s2.linear.bias" in
  let a2 := act 14%Z "a2.S.weight" in
  let c3 := conv 6%nat 16%nat "c3.weight" "c3.bias" in
  let a3 := act 10%Z "a3.S.weight" in
  let s4 := pool 5%Z "s4.linear.weight" "s4.linear.bias" in
  let a4 := act 5%Z "a4.S.weight" in
  let f5 := lin 400%Z 120%Z "f5.weight" "f5.bias" in
  let a5 := act 120%Z "a5.S.weight" in
  let f6 := lin 120%Z 84%Z "f6.weight" "f6.bias" in
  let a6 := act 84%Z "a6.S.weight" in
  let f7 := lin 84%Z num_classes "f7.weight" "f7.bias" in
  mkLenet c1 a1 s2 a2 c3 a3 s4 a4 f5 a5 f6 a6 f7
    [Torch (M_Conv2d c1); Sigmoid a1; Pool s2; Sigmoid a2;
     Torch (M_Conv2d c3); Sigmoid a3; Pool s4; Sigmoid a4;
     Torch M_Flatten;
     Torch (M_Linear f5); Sigmoid a5; Torch (M_Linear f6); Sigmoid a6;
     Torch (M_Linear f7)].

(** The lines [run_tests] prints for a batch of size [b], as a table. *)
Definition shape_table (b : nat) (num_classes : Z) : list Line :=
  [("Conv2d", [b; 6; 28; 28]%nat);
   ("LenetSigmoid", [b; 6; 28; 28]%nat);
   ("LenetPool", [b; 6; 14; 14]%nat);
   ("LenetSigmoid", [b; 6; 14; 14]%nat);
   ("Conv2d", [b; 16; 10; 10]%nat);
   ("LenetSigmoid", [b; 16; 10; 10]%nat);
   ("LenetPool", [b; 16; 5; 5]%nat);
   ("LenetSigmoid", [b; 16; 5; 5]%nat);
   ("Flatten", [b; 400]%nat);
   ("Linear", [b; 120]%nat);
   ("LenetSigmoid", [b; 120]%nat);
   ("Linear", [b; 84]%nat);
   ("LenetSigmoid", [b; 84]%nat);
   ("Linear", [b; Z.to_nat num_classes])].

(* ================================================================== *)
(** ** Tensors and modules that hold the same values

    The entries of a tensor are those at the indices within its shape.
    Two tensors hold the same values when they have one shape and agree
    there; two modules hold the same parameters when their parameter
    tensors do. *)

Definition same_tensor (x y : Tensor) : Prop :=
  shape x = shape y
  /\ forall idx, in_bounds idx (shape x) -> data x idx = data y idx.

Definition same_Linear (l l' : Linear) : Prop :=
  exists o i,
    shape (weight l) = [o; i]
    /\ same_tensor (weight l) (weight l')
    /\ match bias l, bias l' with
       | Some b, Some b' => shape b = [o] /\ same_tensor b b'
       | None, None => True
       | _, _ => False
       end.

Definition same_Conv2d (c c' : Conv2d) : Prop :=
  (exists o i kh kw,
     shape (conv_weight c) = [o; i; kh; kw] /\ shape (conv_bias c) = [o])
  /\ same_tensor (conv_weight c) (conv_weight c')
  /\ same_tensor (conv_bias c) (conv_bias c').

Definition same_TorchModule (m m' : TorchModule) : Prop :=
  match m, m' with
  | M_Conv2d c, M_Conv2d c' => same_Conv2d c c'
  | M_Linear l, M_Linear l' => same_Linear l l'
  | M_LPPool2d p, M_LPPool2d p' => p = p'
  | M_Tanh, M_Tanh => True
  | M_Flatten, M_Flatten => True
  | _, _ => False
  end.

Definition same_Module (m m' : Module) : Prop :=
  match m, m' with
  | Torch t, Torch t' => same_TorchModule t t'
  | Pool p, Pool p' =>
      Forall2 same_TorchModule (pool_layers p) (pool_layers p')
  | Sigmoid a, Sigmoid a' => same_Linear (S_ a) (S_ a') /\ A_ a = A_ a'
  | _, _ => False
  end.

Definition same_model (m m' : Lenet) : Prop :=
  Forall2 same_Module (layers m) (layers m').

(* ================================================================== *)
(** ** Batches and parameters *)



(** [x[:, :, :r, :]]: the first [r] rows of every map of a 4-D tensor
    (for [r] up to the number of rows). *)
Definition crop_rows (r : nat) (x : Tensor) : Tensor :=
  match shape x with
  | [b; c; _; w] => mkTensor [b; c; r; w] (data x)
  | _ => x
  end.

(** The modules other than Flatten: their output entries are addressed as
    their input entries are. *)
Definition keeps_axes_T (m : TorchModule) : bool :=
  match m with
  | M_Flatten => false
  | _ => true
  end.

Definition keeps_axes (m : Module) : bool :=
  match m with
  | Torch t => keeps_axes_T t
  | Pool p => forallb keeps_axes_T (pool_layers p)
  | Sigmoid _ => true
  end.

(** [-x]. *)
Definition tensor_neg (x : Tensor) : Tensor := tensor_map Ropp x.

(** [module.parameters()]: the parameter tensors of a module and of its
    children, each once. *)
Definition Linear_parameters (l : Linear) : list Tensor :=
  weight l :: match bias l with Some b => [b] | None => [] end.

Definition Conv2d_parameters (c : Conv2d) : list Tensor :=
  [conv_weight c; conv_bias c].

Definition TorchModule_parameters (m : TorchModule) : list Tensor :=
  match m with
  | M_Conv2d c => Conv2d_parameters c
  | M_Linear l => Linear_parameters l
  | M_LPPool2d _ | M_Tanh | M_Flatten => []
  end.

Definition Module_parameters (m : Module) : list Tensor :=
  match m with
  | Torch t => TorchModule_parameters t
  | Pool p => flat_map TorchModule_parameters (pool_layers p)
  | Sigmoid a => Linear_parameters (S_ a)
  end.

Definition Lenet_parameters (model : Lenet) : list Tensor :=
  flat_map Module_parameters (layers model).

(** Number of learnable scalars: the sum of [p.numel()] over the
    parameters. *)
Definition num_parameters (ps : list Tensor) : nat :=
  fold_right (fun p acc => (numel (shape p) + acc)%nat) 0%nat ps.

(* ================================================================== *)
(** ** Concrete inputs used in the examples *)

(** All parameters initialised to zero. *)
Definition init0 : ParamInit := fun _ _ => 0.


(** Every weight 1 and every bias 2. *)
Definition init12 : ParamInit :=
  fun name _ => if String.eqb name "f7.bias" then 2 else 1.

(** A batch of one vector of width 84 with every entry 3. *)
Definition threes_84 : Tensor := mkTensor [1; 84]%nat (fun _ => 3).

(* ================================================================== *)
(** * Lemmas *)

Section ShapeLemmas.

Lemma Linear_forward_shape (l : Linear) (x : Tensor) :
  fmap shape (Linear_forward l x) = Linear_shape l (shape x).
Proof.
  unfold Linear_forward. destruct (Linear_shape l (shape x)); reflexivity.
Qed.

Lemma Conv2d_forward_shape (c : Conv2d) (x : Tensor) :
  fmap shape (Conv2d_forward c x) = Conv2d_shape c (shape x).
Proof.
  unfold Conv2d_forward. destruct (Conv2d_shape c (shape x)); reflexivity.
Qed.

Lemma LPPool2d_forward_shape (p : LPPool2d) (x : Tensor) :
  fmap shape (LPPool2d_forward p x) = LPPool2d_shape p (shape x).
Proof.
  unfold LPPool2d_forward, lp_pool2d, avg_pool2d, LPPool2d_shape. simpl.
  destruct (avg_pool2d_shape (kernel_size p) (stride p) (shape x));
    reflexivity.
Qed.

Lemma Flatten_forward_shape (x : Tensor) :
  fmap shape (Flatten_forward x) = Flatten_shape (shape x).
Proof.
  unfold Flatten_forward. destruct (Flatten_shape (shape x)); reflexivity.
Qed.

Lemma TorchModule_call_shape (m : TorchModule) (x : Tensor) :
  fmap shape (TorchModule_call m x) = TorchModule_shape m (shape x).
Proof.
  destruct m; simpl.
  - apply Conv2d_forward_shape.
  - apply Linear_forward_shape.
  - apply LPPool2d_forward_shape.
  - reflexivity.
  - apply Flatten_forward_shape.
Qed.

Lemma Sequential_forward_shape {M : Type}
    (call : M -> Tensor -> result Tensor)
    (sh : M -> list nat -> result (list nat))
    (Hcall : forall m x, fmap shape (call m x) = sh m (shape x))
    (ms : list M) :
  forall x, fmap shape (Sequential_forward call ms x)
            = Sequential_shape sh ms (shape x).
Proof.
  induction ms as [|m rest IH]; intro x; simpl.
  - reflexivity.
  - rewrite <- Hcall. destruct (call m x) as [y|e]; simpl.
    + apply IH.
    + reflexivity.
Qed.

Lemma LenetSigmoid_forward_shape (a : LenetSigmoid) (x : Tensor) :
  fmap shape (LenetSigmoid_forward a x) = Linear_shape (S_ a) (shape x).
Proof.
  unfold LenetSigmoid_forward. rewrite <- Linear_forward_shape.
  destruct (Linear_forward (S_ a) x); reflexivity.
Qed.

Lemma Module_call_shape (m : Module) (x : Tensor) :
  fmap shape (Module_call m x) = Module_shape m (shape x).
Proof.
  destruct m; simpl.
  - apply TorchModule_call_shape.
  - apply Sequential_forward_shape, TorchModule_call_shape.
  - apply LenetSigmoid_forward_shape.
Qed.

Lemma run_tests_loop_shape (ls : list Module) :
  forall x out,
    (fst (run_tests_loop ls x out), fmap shape (snd (run_tests_loop ls x out)))
    = shape_loop ls (shape x) out.
Proof.
  induction ls as [|m rest IH]; intros x out; simpl.
  - reflexivity.
  - rewrite <- Module_call_shape. destruct (Module_call m x) as [y|e]; simpl.
    + apply IH.
    + reflexivity.
Qed.

(** Construction succeeds exactly when [num_classes] is not negative. *)
Lemma Lenet_init_eq (num_classes : Z) (init : ParamInit) :
  Lenet_init num_classes init
  = if (0 <=? num_classes)%Z then Ok (Lenet_build num_classes init)
    else Raise RuntimeError.
Proof.
  unfold Lenet_init, Lenet_build, LenetSigmoid_init, LenetPool_init,
    Conv2d_init, Linear_init, torch_empty.
  cbn [forallb map bind Z.leb Z.compare andb].
  destruct (0 <=? num_classes)%Z; reflexivity.
Qed.

Lemma shape_loop_Lenet (b : nat) (num_classes : Z) (init : ParamInit) :
  shape_loop (layers (Lenet_build num_classes init)) [b; 1; 32; 32]%nat []
  = (shape_table b num_classes, Ok [b; Z.to_nat num_classes]).
Proof. vm_compute. reflexivity. Qed.

Lemma fmap_shape_Ok (r : result Tensor) (s : list nat) :
  fmap shape r = Ok s -> exists y, r = Ok y /\ shape y = s.
Proof.
  destruct r as [y|e]; simpl; intro H; [|discriminate].
  inversion H. exists y. auto.
Qed.

Lemma fmap_shape_Raise (r : result Tensor) (e : exn) :
  fmap shape r = Raise e -> r = Raise e.
Proof.
  destruct r as [y|e']; simpl; intro H; [discriminate|].
  inversion H. reflexivity.
Qed.

Lemma LenetPool_forward_shape (p : LenetPool) (x : Tensor) :
  fmap shape (LenetPool_forward p x)
  = Sequential_shape TorchModule_shape (pool_layers p) (shape x).
Proof. apply Sequential_forward_shape, TorchModule_call_shape. Qed.

Lemma pool_out_2_2 (n : nat) : (2 <= n)%nat -> pool_out n 2 2 = Ok (n / 2)%nat.
Proof.
  intro Hn. unfold pool_out. simpl orb. cbv iota.
  destruct (n <? 2)%nat eqn:E.
  - apply Nat.ltb_lt in E. lia.
  - f_equal.
    replace n with ((n - 2) + 1 * 2)%nat at 2 by lia.
    rewrite Nat.div_add by discriminate. reflexivity.
Qed.

Lemma pool_out_Ok (n k s m : nat) :
  pool_out n k s = Ok m -> (k <= n)%nat /\ k <> 0%nat /\ s <> 0%nat.
Proof.
  unfold pool_out.
  destruct (k =? 0)%nat eqn:Ek; simpl; [discriminate|].
  destruct (s =? 0)%nat eqn:Es; simpl; [discriminate|].
  destruct (n <? k)%nat eqn:En; [discriminate|].
  apply Nat.eqb_neq in Ek, Es. apply Nat.ltb_ge in En. auto.
Qed.

(** On an input of shape (b, 1, 32, 32) the forward pass returns. *)
Lemma Lenet_forward_Ok (b : nat) (num_classes : Z) (init : ParamInit)
    (x : Tensor) :
  shape x = [b; 1; 32; 32]%nat ->
  exists y, Lenet_forward (Lenet_build num_classes init) x = Ok y
            /\ shape y = [b; Z.to_nat num_classes].
Proof.
  intro Hx. apply fmap_shape_Ok. unfold Lenet_forward.
  rewrite (Sequential_forward_shape Module_call Module_shape
             Module_call_shape).
  rewrite Hx. vm_compute. reflexivity.
Qed.

(** Row-major position 399 of a (16, 5, 5) block is its last entry. *)
Example unravel_last : unravel [16; 5; 5]%nat 399 = [15; 4; 4]%nat.
Proof. reflexivity. Qed.

Example pool_out_even : pool_out 28 2 2 = Ok 14%nat.
Proof. reflexivity. Qed.

Example pool_out_odd : pool_out 15 2 2 = Ok 7%nat.
Proof. reflexivity. Qed.

Example pool_out_too_small : pool_out 1 2 2 = Raise RuntimeError.
Proof. reflexivity. Qed.

(** Without the batch dimension the stages run up to Flatten, which keeps
    the 16 channels as rows, and F5 refuses rows of width 25. *)
Example shape_loop_no_batch (num_classes : Z) (init : ParamInit) :
  shape_loop (layers (Lenet_build num_classes init)) [1; 32; 32]%nat []
  = ([("Conv2d", [6; 28; 28]%nat);
      ("LenetSigmoid", [6; 28; 28]%nat);
      ("LenetPool", [6; 14; 14]%nat);
      ("LenetSigmoid", [6; 14; 14]%nat);
      ("Conv2d", [16; 10; 10]%nat);
      ("LenetSigmoid", [16; 10; 10]%nat);
      ("LenetPool", [16; 5; 5]%nat);
      ("LenetSigmoid", [16; 5; 5]%nat);
      ("Flatten", [16; 25]%nat)],
     Raise RuntimeError).
Proof. vm_compute. reflexivity. Qed.

End ShapeLemmas.

(* ================================================================== *)
(** ** Finite sums *)

Section Sums.

Lemma Rsum_ext (n : nat) (f g : nat -> R) :
  (forall k, (k < n)%nat -> f k = g k) -> Rsum n f = Rsum n g.
Proof.
  induction n as [|n IH]; intro H; simpl.
  - reflexivity.
  - rewrite IH by (intros k Hk; apply H; lia).
    rewrite H by lia. reflexivity.
Qed.

Lemma Rsum_const (n : nat) (c : R) : Rsum n (fun _ => c) = INR n * c.
Proof.
  induction n as [|n IH].
  - simpl. lra.
  - change (Rsum (S n) (fun _ => c)) with (Rsum n (fun _ => c) + c).
    rewrite IH, S_INR. lra.
Qed.

End Sums.

(* ================================================================== *)
(** ** The hyperbolic tangent *)

Section TanhFacts.

Lemma tanh_exp (x : R) :
  tanh x = (exp x - exp (- x)) / (exp x + exp (- x)).
Proof.
  unfold tanh, sinh, cosh.
  pose proof (exp_pos x). pose proof (exp_pos (- x)).
  field. lra.
Qed.




End TanhFacts.

(* ================================================================== *)
(** ** Inversion of the constructors and entries of the outputs *)

Section LayerLemmas.

Lemma torch_empty_Ok (dims : list Z) (init : list nat -> R) (t : Tensor) :
  torch_empty dims init = Ok t ->
  Forall (fun d => (0 <= d)%Z) dims /\ t = mkTensor (map Z.to_nat dims) init.
Proof.
  unfold torch_empty. destruct (forallb _ dims) eqn:E; [|discriminate].
  intro H. inversion H. split; [|reflexivity].
  rewrite forallb_forall in E. apply Forall_forall. intros d Hd.
  apply Z.leb_le, E, Hd.
Qed.

Lemma Linear_init_Ok (i o : Z) (wb : bool) (w0 b0 : list nat -> R) (l : Linear) :
  Linear_init i o wb w0 b0 = Ok l ->
  (0 <= i)%Z /\ (0 <= o)%Z /\
  l = mkLinear i o (mkTensor [Z.to_nat o; Z.to_nat i] w0)
        (if wb then Some (mkTensor [Z.to_nat o] b0) else None).
Proof.
  unfold Linear_init, torch_empty; simpl.
  destruct (0 <=? o)%Z eqn:Eo; simpl; [|discriminate].
  destruct (0 <=? i)%Z eqn:Ei; simpl; [|discriminate].
  apply Z.leb_le in Eo, Ei.
  destruct wb; simpl; intro H; inversion H; auto.
Qed.

Lemma LenetSigmoid_init_Ok (i o : Z) (w0 : list nat -> R) (m : LenetSigmoid) :
  LenetSigmoid_init i o w0 = Ok m ->
  (0 <= i)%Z /\ (0 <= o)%Z /\
  m = mkLenetSigmoid
        (mkLinear i o (mkTensor [Z.to_nat o; Z.to_nat i] w0) None)
        (17159 / 10000).
Proof.
  unfold LenetSigmoid_init.
  destruct (Linear_init i o false w0 (fun _ => 0)) as [l|e] eqn:E;
    simpl; [|discriminate].
  apply Linear_init_Ok in E. destruct E as (Hi & Ho & ->).
  intro H. inversion H. auto.
Qed.

Lemma LenetPool_init_Ok (k s : nat) (i o : Z) (w0 b0 : list nat -> R)
    (p : LenetPool) :
  LenetPool_init k s i o w0 b0 = Ok p ->
  (0 <= i)%Z /\ (0 <= o)%Z /\
  let l := mkLinear i o (mkTensor [Z.to_nat o; Z.to_nat i] w0)
             (Some (mkTensor [Z.to_nat o] b0)) in
  p = mkLenetPool (mkLPPool2d 1 k s) l [M_LPPool2d (mkLPPool2d 1 k s); M_Linear l].
Proof.
  unfold LenetPool_init.
  destruct (Linear_init i o true w0 b0) as [l|e] eqn:E; simpl; [|discriminate].
  apply Linear_init_Ok in E. destruct E as (Hi & Ho & ->).
  intro H. inversion H. auto.
Qed.

Lemma Lenet_init_Ok (num_classes : Z) (init : ParamInit) (model : Lenet) :
  Lenet_init num_classes init = Ok model ->
  (0 <= num_classes)%Z /\ model = Lenet_build num_classes init.
Proof.
  rewrite Lenet_init_eq. destruct (0 <=? num_classes)%Z eqn:E; [|discriminate].
  intro H. inversion H. split; [apply Z.leb_le, E | reflexivity].
Qed.

Lemma Linear_forward_Ok (l : Linear) (x y : Tensor) :
  Linear_forward l x = Ok y ->
  shape x <> [] /\
  last (shape x) 0%nat = nth 1 (shape (weight l)) 0%nat /\
  y = mkTensor (removelast (shape x) ++ [nth 0 (shape (weight l)) 0%nat])
               (Linear_data l x).
Proof.
  unfold Linear_forward, Linear_shape.
  destruct (shape x) as [|d ds] eqn:Es; simpl; [discriminate|].
  destruct (Nat.eqb _ _) eqn:E; simpl; [|discriminate].
  apply Nat.eqb_eq in E. intro H. inversion H. repeat split; auto.
  discriminate.
Qed.

Lemma Linear_data_snoc (l : Linear) (x : Tensor) (pre : list nat) (j : nat) :
  Linear_data l x (pre ++ [j])
  = Rsum (nth 1 (shape (weight l)) 0%nat)
         (fun k => data x (pre ++ [k]) * data (weight l) [j; k])
    + match bias l with Some b => data b [j] | None => 0 end.
Proof.
  unfold Linear_data. rewrite last_last, removelast_last. reflexivity.
Qed.

Lemma LenetSigmoid_forward_data (m : LenetSigmoid) (x z y : Tensor) :
  Linear_forward (S_ m) x = Ok z ->
  LenetSigmoid_forward m x = Ok y ->
  shape y = shape z /\ forall idx, data y idx = A_ m * tanh (data z idx).
Proof.
  unfold LenetSigmoid_forward. intros -> H. simpl in H. inversion H.
  split; reflexivity.
Qed.

Lemma LenetSigmoid_forward_Ok (m : LenetSigmoid) (x y : Tensor) :
  LenetSigmoid_forward m x = Ok y ->
  exists z, Linear_forward (S_ m) x = Ok z.
Proof.
  unfold LenetSigmoid_forward.
  destruct (Linear_forward (S_ m) x) as [z|e]; simpl; [|discriminate].
  intros _. exists z. reflexivity.
Qed.

Lemma Sequential_forward_app {M : Type} (call : M -> Tensor -> result Tensor)
    (l1 l2 : list M) :
  forall x,
    Sequential_forward call (l1 ++ l2) x
    = (h <- Sequential_forward call l1 x ;; Sequential_forward call l2 h).
Proof.
  induction l1 as [|m rest IH]; intro x; simpl.
  - reflexivity.
  - destruct (call m x) as [y|e]; simpl; [apply IH | reflexivity].
Qed.

Lemma sign_relu_abs (v : R) : sign v * relu (Rabs v) = v.
Proof.
  unfold sign, relu.
  rewrite Rmax_right by apply Rabs_pos.
  destruct (Rlt_dec 0 v) as [Hp|Hp].
  - rewrite Rabs_right by lra. lra.
  - destruct (Rlt_dec v 0) as [Hn|Hn].
    + rewrite Rabs_left by exact Hn. lra.
    + assert (v = 0) by lra. subst v. lra.
Qed.

Lemma pow_1 (v : R) : pow v 1 = v.
Proof. unfold pow. destruct (Req_dec_T 1 1); [reflexivity | contradiction]. Qed.

Lemma pow_inv_1 (v : R) : pow v (1 / 1) = v.
Proof.
  unfold pow. destruct (Req_dec_T (1 / 1) 1) as [_|H]; [reflexivity|].
  exfalso. apply H. field.
Qed.

(** Exponent 1, window 2: the pooled entry is the sum of the window. *)
Lemma lp_pool2d_1_2_data (x s : Tensor) (st : nat) :
  lp_pool2d x 1 2 st = Ok s ->
  forall pre i j,
    data s (pre ++ [i; j])
    = data x (pre ++ [(i * st)%nat; (j * st)%nat])
      + data x (pre ++ [(i * st)%nat; (j * st + 1)%nat])
      + data x (pre ++ [(i * st + 1)%nat; (j * st)%nat])
      + data x (pre ++ [(i * st + 1)%nat; (j * st + 1)%nat]).
Proof.
  unfold lp_pool2d, avg_pool2d. simpl shape.
  destruct (avg_pool2d_shape 2 st (shape x)) as [sh|e]; simpl; [|discriminate].
  intros H pre i j. inversion H. simpl.
  rewrite pow_inv_1, sign_relu_abs.
  unfold avg_pool2d_data. rewrite rev_app_distr. simpl.
  rewrite rev_involutive. simpl. rewrite !pow_1, !Nat.add_0_r.
  field.
Qed.

(** The Subsampling-Pool unit is the pooling followed by the remap, and
    the pooled entry is the sum of its window. *)
Lemma LenetPool_pooled_sum
    (in_f out_f : Z) (w0 b0 : list nat -> R) (p : LenetPool)
    (x s : Tensor) :
  LenetPool_init 2 2 in_f out_f w0 b0 = Ok p ->
  LPPool2d_forward (sum_pool p) x = Ok s ->
  LenetPool_forward p x = Linear_forward (linear p) s
  /\ (forall pre i j,
        data s (pre ++ [i; j])
        = data x (pre ++ [(2 * i)%nat; (2 * j)%nat])
          + data x (pre ++ [(2 * i)%nat; (2 * j + 1)%nat])
          + data x (pre ++ [(2 * i + 1)%nat; (2 * j)%nat])
          + data x (pre ++ [(2 * i + 1)%nat; (2 * j + 1)%nat])).
Proof.
  intros Hinit Hs.
  apply LenetPool_init_Ok in Hinit. destruct Hinit as (_ & _ & Hp).
  simpl in Hp. subst p. simpl in Hs.
  split.
  - unfold LenetPool_forward. simpl. rewrite Hs.
    destruct (Linear_forward _ s); reflexivity.
  - intros pre i j. unfold LPPool2d_forward in Hs. simpl in Hs.
    rewrite (lp_pool2d_1_2_data x s 2 Hs pre i j).
    rewrite (Nat.mul_comm i 2), (Nat.mul_comm j 2). reflexivity.
Qed.

Lemma run_tests_loop_result (ls : list Module) :
  forall x out,
    snd (run_tests_loop ls x out) = Sequential_forward Module_call ls x.
Proof.
  induction ls as [|m rest IH]; intros x out; simpl.
  - reflexivity.
  - destruct (Module_call m x) as [y|e]; [apply IH | reflexivity].
Qed.

(** Shape part of a Subsampling-Pool unit with window 2 and stride 2 on a
    4-D input whose maps are at least 2 x 2. *)
Lemma LenetPool_2_2_shape (i o : Z) (w0 b0 : list nat -> R) (p : LenetPool)
    (b c H W : nat) :
  LenetPool_init 2 2 i o w0 b0 = Ok p ->
  (2 <= H)%nat -> (2 <= W)%nat ->
  Sequential_shape TorchModule_shape (pool_layers p) [b; c; H; W]
  = if (W / 2 =? Z.to_nat i)%nat
    then Ok [b; c; (H / 2)%nat; Z.to_nat o]
    else Raise RuntimeError.
Proof.
  intros Hinit HH HW.
  apply LenetPool_init_Ok in Hinit. destruct Hinit as (_ & _ & Hp).
  simpl in Hp. subst p.
  cbn [pool_layers Sequential_shape TorchModule_shape LPPool2d_shape
       kernel_size stride avg_pool2d_shape].
  unfold pool_hw. rewrite (pool_out_2_2 H HH), (pool_out_2_2 W HW).
  cbn [bind fmap Linear_shape weight shape last removelast nth app].
  destruct (W / 2 =? Z.to_nat i)%nat; reflexivity.
Qed.

Lemma Sequential_shape_pool_Ok (p : LenetPool) (i o : Z)
    (w0 b0 : list nat -> R) (b c H W : nat) (s : list nat) :
  LenetPool_init 2 2 i o w0 b0 = Ok p ->
  Sequential_shape TorchModule_shape (pool_layers p) [b; c; H; W] = Ok s ->
  (2 <= H)%nat /\ (2 <= W)%nat.
Proof.
  intros Hinit.
  apply LenetPool_init_Ok in Hinit. destruct Hinit as (_ & _ & Hp).
  simpl in Hp. subst p.
  cbn [pool_layers Sequential_shape TorchModule_shape LPPool2d_shape
       kernel_size stride avg_pool2d_shape].
  unfold pool_hw.
  destruct (pool_out H 2 2) as [h|e] eqn:EH; [|discriminate].
  destruct (pool_out W 2 2) as [w|e] eqn:EW; [|discriminate].
  apply pool_out_Ok in EH, EW. intros _. lia.
Qed.

End LayerLemmas.

(* ================================================================== *)
(** ** The output holds the same values when the input and the
       parameters do *)

Section SameValues.

Lemma in_bounds_snoc (pre s : list nat) (k n : nat) :
  in_bounds pre s -> (k < n)%nat -> in_bounds (pre ++ [k]) (s ++ [n]).
Proof.
  intros Hp Hk. apply Forall2_app; [exact Hp|]. repeat constructor. exact Hk.
Qed.

Lemma in_bounds_snoc_inv (idx s : list nat) (n : nat) :
  in_bounds idx (s ++ [n]) ->
  exists pre j, idx = pre ++ [j] /\ in_bounds pre s /\ (j < n)%nat.
Proof.
  intro H. apply Forall2_app_inv_r in H.
  destruct H as (pre & l2 & Hp & H2 & ->).
  inversion H2 as [|j n' t t' Hj Ht]; subst. inversion Ht; subst.
  exists pre, j. auto.
Qed.

Lemma same_tensor_refl (x : Tensor) : same_tensor x x.
Proof. split; reflexivity. Qed.

Lemma same_tensor_map (f : R -> R) (x x' : Tensor) :
  same_tensor x x' -> same_tensor (tensor_map f x) (tensor_map f x').
Proof.
  intros [Hs Hd]. split; simpl; [exact Hs|].
  intros idx Hi. rewrite (Hd idx Hi). reflexivity.
Qed.

Lemma same_tensor_mul (x x' y y' : Tensor) :
  shape x = shape y ->
  same_tensor x x' -> same_tensor y y' ->
  same_tensor (tensor_mul x y) (tensor_mul x' y').
Proof.
  intros Hxy [Hs Hd] [Hs' Hd']. split; simpl; [exact Hs|].
  intros idx Hi. rewrite (Hd idx Hi), (Hd' idx) by (rewrite <- Hxy; exact Hi).
  reflexivity.
Qed.

Lemma Linear_forward_same (l l' : Linear) (x x' y : Tensor) :
  same_Linear l l' -> same_tensor x x' ->
  Linear_forward l x = Ok y ->
  exists y', Linear_forward l' x' = Ok y' /\ same_tensor y y'.
Proof.
  intros (o & i & Hw & [Hws Hwd] & Hb) [Hs Hd] Hy.
  apply Linear_forward_Ok in Hy. destruct Hy as (Hne & Hlast & ->).
  assert (Hw' : shape (weight l') = [o; i]) by (rewrite <- Hws; exact Hw).
  rewrite Hw in Hlast, Hwd |- *. simpl nth in *.
  exists (mkTensor (removelast (shape x') ++ [o]) (Linear_data l' x')).
  split.
  - unfold Linear_forward, Linear_shape. rewrite <- Hs, Hw'. simpl nth.
    destruct (shape x) as [|d ds] eqn:E; [contradiction|].
    rewrite Hlast, Nat.eqb_refl. reflexivity.
  - split; simpl.
    + rewrite Hs. reflexivity.
    + intros idx Hi. apply in_bounds_snoc_inv in Hi.
      destruct Hi as (pre & j & -> & Hpre & Hj).
      rewrite !Linear_data_snoc, Hw, Hw'. simpl nth. f_equal.
      * apply Rsum_ext. intros k Hk. f_equal.
        -- apply Hd. rewrite (app_removelast_last 0%nat Hne), Hlast.
           apply in_bounds_snoc; assumption.
        -- apply Hwd. repeat constructor; assumption.
      * destruct (bias l) as [b|], (bias l') as [b'|]; try contradiction.
        -- destruct Hb as [Hbs [_ Hbd]]. apply Hbd. rewrite Hbs.
           repeat constructor. exact Hj.
        -- reflexivity.
Qed.

Ltac inv_bounds :=
  unfold in_bounds in *;
  repeat match goal with
         | H : Forall2 lt _ (_ :: _) |- _ => inversion H; subst; clear H
         | H : Forall2 lt _ [] |- _ => inversion H; subst; clear H
         end.

Lemma Conv2d_shape_same (c c' : Conv2d) (s : list nat) :
  shape (conv_weight c) = shape (conv_weight c') ->
  Conv2d_shape c' s = Conv2d_shape c s.
Proof.
  intro H. unfold Conv2d_shape, Conv2d_chw, conv_in, conv_out, conv_kh,
    conv_kw. rewrite H. reflexivity.
Qed.

Lemma Conv2d_chw_Ok (c : Conv2d) (ch h w : nat) (s : list nat) :
  Conv2d_chw c ch h w = Ok s ->
  ch = conv_in c /\ (conv_kh c <= h)%nat /\ (conv_kw c <= w)%nat
  /\ s = [conv_out c; (h - conv_kh c + 1)%nat; (w - conv_kw c + 1)%nat].
Proof.
  unfold Conv2d_chw.
  destruct (Nat.eqb ch (conv_in c)) eqn:Ec; simpl; [|discriminate].
  destruct (h <? conv_kh c)%nat eqn:Eh; simpl; [discriminate|].
  destruct (w <? conv_kw c)%nat eqn:Ew; simpl; [discriminate|].
  apply Nat.eqb_eq in Ec. apply Nat.ltb_ge in Eh, Ew.
  intro H. inversion H. auto.
Qed.

(** The entries of a convolution on one (C, H, W) block, addressed after a
    prefix [pre] of leading indices. *)
Lemma Conv2d_data_same (c c' : Conv2d) (x x' : Tensor)
    (pre spre : list nat) (ch h w o i kh kw oo ii jj : nat) :
  shape (conv_weight c) = [o; i; kh; kw] ->
  shape (conv_bias c) = [o] ->
  same_tensor (conv_weight c) (conv_weight c') ->
  same_tensor (conv_bias c) (conv_bias c') ->
  same_tensor x x' ->
  shape x = spre ++ [ch; h; w] ->
  in_bounds pre spre ->
  ch = i -> (kh <= h)%nat -> (kw <= w)%nat ->
  (oo < o)%nat -> (ii < h - kh + 1)%nat -> (jj < w - kw + 1)%nat ->
  Conv2d_data c x (pre ++ [oo; ii; jj]) = Conv2d_data c' x' (pre ++ [oo; ii; jj]).
Proof.
  intros Hw Hb [Hws Hwd] [Hbs Hbd] [Hs Hd] Hx Hpre Hch Hkh Hkw Ho Hi Hj.
  unfold Conv2d_data, conv_in, conv_kh, conv_kw.
  rewrite <- Hws, Hw, rev_app_distr. simpl rev. simpl app. simpl nth.
  cbv beta iota. rewrite rev_involutive. f_equal.
  - apply Hbd. rewrite Hb. repeat constructor. exact Ho.
  - apply Rsum_ext. intros ci Hci.
    apply Rsum_ext. intros di Hdi.
    apply Rsum_ext. intros dj Hdj. f_equal.
    + apply Hwd. rewrite Hw. repeat constructor; assumption.
    + apply Hd. rewrite Hx. apply Forall2_app; [exact Hpre|].
      repeat constructor; lia.
Qed.

Lemma Conv2d_forward_same (c c' : Conv2d) (x x' y : Tensor) :
  same_Conv2d c c' -> same_tensor x x' ->
  Conv2d_forward c x = Ok y ->
  exists y', Conv2d_forward c' x' = Ok y' /\ same_tensor y y'.
Proof.
  intros ((o & i & kh & kw & Hw & Hb) & Hsw & Hsb) Hx Hy.
  unfold Conv2d_forward in *.
  destruct (Conv2d_shape c (shape x)) as [s|e] eqn:Es; simpl in Hy;
    [|discriminate].
  inversion Hy; subst y; clear Hy.
  rewrite <- (proj1 Hx), (Conv2d_shape_same c c' _ (proj1 Hsw)), Es.
  simpl. eexists. split; [reflexivity|]. split; [reflexivity|].
  simpl. intros idx Hidx.
  unfold Conv2d_shape in Es.
  destruct (shape x) as [|d1 [|d2 [|d3 [|d4 [|d5 ds]]]]] eqn:Ex;
    try discriminate.
  - apply Conv2d_chw_Ok in Es. destruct Es as (Hch & Hh & Hww & ->).
    unfold conv_in, conv_out, conv_kh, conv_kw in *. rewrite Hw in *.
    simpl nth in *. inv_bounds.
    eapply (Conv2d_data_same c c' x x' [] []);
      try eassumption; try reflexivity; constructor.
  - destruct (Conv2d_chw c d2 d3 d4) as [s'|e] eqn:Ec; simpl in Es;
      [|discriminate].
    inversion Es; subst s; clear Es.
    apply Conv2d_chw_Ok in Ec. destruct Ec as (Hch & Hh & Hww & ->).
    unfold conv_in, conv_out, conv_kh, conv_kw in *. rewrite Hw in *.
    simpl nth in *. inv_bounds.
    match goal with
    | |- Conv2d_data c x [?a; _; _; _] = _ =>
        eapply (Conv2d_data_same c c' x x' [a] [_])
    end; simpl app; try eassumption; try reflexivity.
    repeat constructor. assumption.
Qed.

Lemma pool_index_in_range (n k s m i d : nat) :
  pool_out n k s = Ok m -> (i < m)%nat -> (d < k)%nat -> (i * s + d < n)%nat.
Proof.
  intros H Hi Hd. pose proof (pool_out_Ok n k s m H) as (Hkn & Hk & Hs).
  unfold pool_out in H.
  destruct ((k =? 0)%nat || (s =? 0)%nat); [discriminate|].
  destruct (n <? k)%nat; [discriminate|]. inversion H; subst m; clear H.
  assert (Hle : (i <= (n - k) / s)%nat) by lia.
  pose proof (Nat.Div0.mul_div_le (n - k) s) as Hm.
  assert (i * s <= s * ((n - k) / s))%nat.
  { rewrite (Nat.mul_comm s). apply Nat.mul_le_mono_r. exact Hle. }
  lia.
Qed.

Lemma avg_pool2d_data_same (k s : nat) (x x' : Tensor)
    (pre spre : list nat) (h w h' w' ii jj : nat) :
  same_tensor x x' ->
  shape x = spre ++ [h; w] ->
  in_bounds pre spre ->
  pool_out h k s = Ok h' -> pool_out w k s = Ok w' ->
  (ii < h')%nat -> (jj < w')%nat ->
  avg_pool2d_data k s x (pre ++ [ii; jj])
  = avg_pool2d_data k s x' (pre ++ [ii; jj]).
Proof.
  intros [Hs Hd] Hx Hpre Hh Hw Hi Hj.
  unfold avg_pool2d_data. rewrite rev_app_distr. simpl rev. simpl app.
  cbv beta iota. rewrite rev_involutive. f_equal.
  apply Rsum_ext. intros di Hdi. apply Rsum_ext. intros dj Hdj.
  apply Hd. rewrite Hx. apply Forall2_app; [exact Hpre|].
  repeat constructor.
  - exact (pool_index_in_range h k s h' ii di Hh Hi Hdi).
  - exact (pool_index_in_range w k s w' jj dj Hw Hj Hdj).
Qed.

Lemma avg_pool2d_same (k s : nat) (x x' y : Tensor) :
  same_tensor x x' ->
  avg_pool2d x k s = Ok y ->
  exists y', avg_pool2d x' k s = Ok y' /\ same_tensor y y'.
Proof.
  intros Hx Hy. unfold avg_pool2d in *.
  destruct (avg_pool2d_shape k s (shape x)) as [sh|e] eqn:Es; simpl in Hy;
    [|discriminate].
  inversion Hy; subst y; clear Hy.
  rewrite <- (proj1 Hx), Es. simpl.
  eexists. split; [reflexivity|]. split; [reflexivity|].
  simpl. intros idx Hidx.
  unfold avg_pool2d_shape, pool_hw in Es.
  destruct (shape x) as [|d1 [|d2 [|d3 [|d4 [|d5 ds]]]]] eqn:Ex;
    try discriminate.
  - destruct (pool_out d2 k s) as [h'|e] eqn:Eh; simpl in Es; [|discriminate].
    destruct (pool_out d3 k s) as [w'|e] eqn:Ew; simpl in Es; [|discriminate].
    inversion Es; subst sh; clear Es. inv_bounds.
    match goal with
    | |- avg_pool2d_data k s x [?a; _; _] = _ =>
        eapply (avg_pool2d_data_same k s x x' [a] [_])
    end; simpl app; try eassumption; try reflexivity.
    repeat constructor. assumption.
  - destruct (pool_out d3 k s) as [h'|e] eqn:Eh; simpl in Es; [|discriminate].
    destruct (pool_out d4 k s) as [w'|e] eqn:Ew; simpl in Es; [|discriminate].
    inversion Es; subst sh; clear Es. inv_bounds.
    match goal with
    | |- avg_pool2d_data k s x [?a; ?b; _; _] = _ =>
        eapply (avg_pool2d_data_same k s x x' [a; b] [_; _])
    end; simpl app; try eassumption; try reflexivity.
    repeat constructor; assumption.
Qed.

Lemma LPPool2d_forward_same (p : LPPool2d) (x x' y : Tensor) :
  same_tensor x x' ->
  LPPool2d_forward p x = Ok y ->
  exists y', LPPool2d_forward p x' = Ok y' /\ same_tensor y y'.
Proof.
  intros Hx Hy. unfold LPPool2d_forward, lp_pool2d in *.
  destruct (avg_pool2d (tensor_map (fun v => pow v (norm_type p)) x)
              (kernel_size p) (stride p)) as [out|e] eqn:Eo; simpl in Hy;
    [|discriminate].
  inversion Hy; subst y; clear Hy.
  destruct (avg_pool2d_same _ _ _
              (tensor_map (fun v => pow v (norm_type p)) x') _
              (same_tensor_map _ x x' Hx) Eo) as (out' & Eo' & Hout).
  rewrite Eo'. simpl. eexists. split; [reflexivity|].
  repeat apply same_tensor_map.
  apply same_tensor_mul; [reflexivity| |]; repeat apply same_tensor_map;
    exact Hout.
Qed.

Lemma unravel_in_bounds (dims : list nat) :
  forall f, (f < numel dims)%nat -> in_bounds (unravel dims f) dims.
Proof.
  induction dims as [|d ds IH]; intros f Hf; simpl.
  - constructor.
  - change (numel (d :: ds)) with (d * numel ds)%nat in Hf.
    assert (Hpos : numel ds <> 0%nat) by (intro E; rewrite E in Hf; lia).
    constructor.
    + apply Nat.Div0.div_lt_upper_bound. lia.
    + apply IH. apply Nat.mod_upper_bound. exact Hpos.
Qed.

Lemma Flatten_forward_same (x x' y : Tensor) :
  same_tensor x x' ->
  Flatten_forward x = Ok y ->
  exists y', Flatten_forward x' = Ok y' /\ same_tensor y y'.
Proof.
  intros [Hs Hd] Hy. unfold Flatten_forward in *. rewrite <- Hs.
  destruct (Flatten_shape (shape x)) as [s|e] eqn:Es; simpl in *;
    [|discriminate].
  inversion Hy; subst y; clear Hy.
  eexists. split; [reflexivity|]. split; [reflexivity|].
  simpl. intros idx Hidx. unfold Flatten_shape in Es.
  destruct (shape x) as [|n [|d ds]] eqn:Ex; try discriminate.
  inversion Es; subst s; clear Es. inv_bounds.
  unfold Flatten_data. rewrite <- Hs, Ex. simpl tl.
  apply Hd. constructor; [assumption|].
  apply unravel_in_bounds. assumption.
Qed.

Lemma TorchModule_call_same (m m' : TorchModule) (x x' y : Tensor) :
  same_TorchModule m m' -> same_tensor x x' ->
  TorchModule_call m x = Ok y ->
  exists y', TorchModule_call m' x' = Ok y' /\ same_tensor y y'.
Proof.
  destruct m, m'; simpl; intros Hm Hx Hy; try contradiction.
  - eapply Conv2d_forward_same; eassumption.
  - eapply Linear_forward_same; eassumption.
  - subst p0. eapply LPPool2d_forward_same; eassumption.
  - unfold Tanh_forward in *. inversion Hy. eexists. split; [reflexivity|].
    apply same_tensor_map, Hx.
  - eapply Flatten_forward_same; eassumption.
Qed.

Lemma Sequential_forward_same {M : Type}
    (call : M -> Tensor -> result Tensor) (same : M -> M -> Prop)
    (Hcall : forall m m' x x' y,
        same m m' -> same_tensor x x' -> call m x = Ok y ->
        exists y', call m' x' = Ok y' /\ same_tensor y y')
    (ms ms' : list M) :
  Forall2 same ms ms' ->
  forall x x' y,
    same_tensor x x' ->
    Sequential_forward call ms x = Ok y ->
    exists y', Sequential_forward call ms' x' = Ok y' /\ same_tensor y y'.
Proof.
  induction 1 as [|m m' rest rest' Hm Hrest IH]; intros x x' y Hx Hy; simpl in *.
  - inversion Hy; subst. exists x'. auto.
  - destruct (call m x) as [z|e] eqn:Ez; [|discriminate].
    destruct (Hcall m m' x x' z Hm Hx Ez) as (z' & Ez' & Hz).
    rewrite Ez'. eapply IH; eassumption.
Qed.

Lemma LenetSigmoid_forward_same (a a' : LenetSigmoid) (x x' y : Tensor) :
  same_Linear (S_ a) (S_ a') -> A_ a = A_ a' -> same_tensor x x' ->
  LenetSigmoid_forward a x = Ok y ->
  exists y', LenetSigmoid_forward a' x' = Ok y' /\ same_tensor y y'.
Proof.
  intros HS HA Hx Hy. unfold LenetSigmoid_forward in *.
  destruct (Linear_forward (S_ a) x) as [z|e] eqn:Ez; simpl in Hy;
    [|discriminate].
  inversion Hy; subst y; clear Hy.
  destruct (Linear_forward_same _ _ x x' z HS Hx Ez) as (z' & Ez' & Hz).
  rewrite Ez'. simpl. eexists. split; [reflexivity|].
  rewrite HA. repeat apply same_tensor_map. exact Hz.
Qed.

Lemma Module_call_same (m m' : Module) (x x' y : Tensor) :
  same_Module m m' -> same_tensor x x' ->
  Module_call m x = Ok y ->
  exists y', Module_call m' x' = Ok y' /\ same_tensor y y'.
Proof.
  destruct m, m'; simpl; intros Hm Hx Hy; try contradiction.
  - eapply TorchModule_call_same; eassumption.
  - unfold LenetPool_forward in *.
    eapply (Sequential_forward_same TorchModule_call same_TorchModule
              TorchModule_call_same); eassumption.
  - destruct Hm as [HS HA]. eapply LenetSigmoid_forward_same; eassumption.
Qed.

Lemma Lenet_forward_same (m m' : Lenet) (x x' y : Tensor) :
  same_model m m' -> same_tensor x x' ->
  Lenet_forward m x = Ok y ->
  exists y', Lenet_forward m' x' = Ok y' /\ same_tensor y y'.
Proof.
  unfold same_model, Lenet_forward. intros Hm Hx Hy.
  eapply (Sequential_forward_same Module_call same_Module Module_call_same);
    eassumption.
Qed.

(** A constructed Network holds the same parameters as itself. *)
Lemma same_model_refl (num_classes : Z) (init : ParamInit) :
  same_model (Lenet_build num_classes init) (Lenet_build num_classes init).
Proof.
  unfold same_model. simpl.
  repeat (constructor; simpl);
    try reflexivity;
    try (do 2 eexists; split; [reflexivity|]; split;
         [apply same_tensor_refl|]; simpl; auto using same_tensor_refl);
    try (do 4 eexists; split; reflexivity);
    try apply same_tensor_refl.
Qed.

End SameValues.

(* ================================================================== *)
(** * The claims *)

(** C1. Shape propagation: for every batch size b >= 1 and every
    num_classes a Network was constructed with, an input of shape
    (b, 1, 32, 32) passes the stages in order with the output shapes of the
    table: (b,6,28,28) after C1 and A1, (b,6,14,14) after S2 and A2,
    (b,16,10,10) after C3 and A3, (b,16,5,5) after S4 and A4, (b,400) after
    Flatten, (b,120) after F5 and A5, (b,84) after F6 and A6, and
    (b, num_classes) after F7. *)
Theorem C1_shape_propagation
    (b : nat) (num_classes : Z) (init : ParamInit) (model : Lenet)
    (x : Tensor) :
  (1 <= b)%nat ->
  Lenet_init num_classes init = Ok model ->
  shape x = [b; 1; 32; 32]%nat ->
  exists y,
    run_tests_loop (layers model) x [] = (shape_table b num_classes, Ok y)
    /\ shape y = [b; Z.to_nat num_classes].
Proof.
  intros _ Hinit Hx.
  apply Lenet_init_Ok in Hinit. destruct Hinit as [_ ->].
  pose proof (run_tests_loop_shape
                (layers (Lenet_build num_classes init)) x []) as H.
  rewrite Hx, shape_loop_Lenet in H.
  destruct (run_tests_loop (layers (Lenet_build num_classes init)) x [])
    as [out [y|e]]; simpl in H.
  - inversion H. exists y. split; reflexivity.
  - discriminate H.
Qed.

Lemma C1_shape_propagation_witness :
  exists y,
    run_tests_loop (layers (Lenet_build 10 init0))
                   (zeros [1; 1; 32; 32]%nat) []
    = (shape_table 1 10, Ok y)
    /\ shape y = [1; 10]%nat.
Proof.
  apply (C1_shape_propagation 1 10 init0 (Lenet_build 10 init0)
           (zeros [1; 1; 32; 32]%nat)).
  - lia.
  - rewrite Lenet_init_eq. reflexivity.
  - reflexivity.
Defined.



(** C3. The forward computation of the Scaled-Activation unit is exactly
    A * tanh(S x): S is a linear map without additive bias (square in
    each of the six units of the Network), A is the constant 1.7159, and
    nothing is added before the nonlinearity or after the scaling. *)
Theorem C3_activation_formula
    (in_f out_f : Z) (w0 : list nat -> R) (m : LenetSigmoid)
    (x y : Tensor) :
  LenetSigmoid_init in_f out_f w0 = Ok m ->
  LenetSigmoid_forward m x = Ok y ->
  A_ m = 17159 / 10000
  /\ bias (S_ m) = None
  /\ shape (weight (S_ m)) = [Z.to_nat out_f; Z.to_nat in_f]
  /\ shape y = removelast (shape x) ++ [Z.to_nat out_f]
  /\ (forall pre j,
        data y (pre ++ [j])
        = 17159 / 10000
          * tanh (Rsum (Z.to_nat in_f)
                       (fun k => data x (pre ++ [k]) * w0 [j; k])))
  /\ (forall num_classes init model,
        Lenet_init num_classes init = Ok model ->
        Forall (fun a => in_features (S_ a) = out_features (S_ a))
               [a1 model; a2 model; a3 model; a4 model; a5 model; a6 model]).
Proof.
  intros Hinit Hy.
  destruct (LenetSigmoid_forward_Ok m x y Hy) as [z Hz].
  destruct (LenetSigmoid_forward_data m x z y Hz Hy) as [Hs Hd].
  apply Linear_forward_Ok in Hz. destruct Hz as (_ & _ & Hz).
  apply LenetSigmoid_init_Ok in Hinit. destruct Hinit as (_ & _ & Hm).
  subst m. simpl in *. subst z. simpl in *.
  repeat split; auto.
  - intros pre j. rewrite Hd, Linear_data_snoc. simpl.
    rewrite Rplus_0_r. reflexivity.
  - intros nc init model Hl. apply Lenet_init_Ok in Hl.
    destruct Hl as [_ ->]. simpl. repeat constructor.
Qed.

Lemma C3_activation_formula_witness :
  exists y,
    LenetSigmoid_forward (a4 (Lenet_build 10 init0)) (zeros [1; 16; 5; 5]%nat)
    = Ok y
    /\ shape y = [1; 16; 5; 5]%nat
    /\ forall pre j,
         data y (pre ++ [j])
         = 17159 / 10000
           * tanh (Rsum 5 (fun k =>
                     data (zeros [1; 16; 5; 5]%nat) (pre ++ [k])
                     * init0 "a4.S.weight" [j; k])).
Proof.
  eexists. split; [reflexivity|].
  destruct (C3_activation_formula 5 5 (init0 "a4.S.weight")
              (a4 (Lenet_build 10 init0)) (zeros [1; 16; 5; 5]%nat) _
              eq_refl eq_refl) as (_ & _ & _ & Hs & Hd & _).
  split; [exact Hs | exact Hd].
Defined.






(** C6 (as the code has it). After the windowed sum, the Subsampling-Pool
    unit applies its learned linear remap (weights and bias) along the last
    axis only: the width floor(W/2) of the pooled maps must be the
    configured in_features and is replaced by out_features.  For an input
    of shape (batch, channels, H, W) the output has shape
    (batch, channels, floor(H/2), out_features); nothing is flattened. *)
Theorem C6_pool_remap
    (in_f out_f : Z) (w0 b0 : list nat -> R) (p : LenetPool)
    (b c H W : nat) (x y : Tensor) :
  LenetPool_init 2 2 in_f out_f w0 b0 = Ok p ->
  shape x = [b; c; H; W] ->
  LenetPool_forward p x = Ok y ->
  (W / 2)%nat = Z.to_nat in_f
  /\ shape y = [b; c; (H / 2)%nat; Z.to_nat out_f]
  /\ (forall pre i j,
        data y (pre ++ [i; j])
        = Rsum (Z.to_nat in_f)
            (fun k =>
               (data x (pre ++ [(2 * i)%nat; (2 * k)%nat])
                + data x (pre ++ [(2 * i)%nat; (2 * k + 1)%nat])
                + data x (pre ++ [(2 * i + 1)%nat; (2 * k)%nat])
                + data x (pre ++ [(2 * i + 1)%nat; (2 * k + 1)%nat]))
               * w0 [j; k])
          + b0 [j]).
Proof.
  intros Hinit Hx Hy.
  pose proof (LenetPool_forward_shape p x) as Hs.
  rewrite Hy, Hx in Hs. simpl fmap in Hs. symmetry in Hs.
  destruct (Sequential_shape_pool_Ok p _ _ _ _ b c H W _ Hinit Hs) as [HH HW].
  rewrite (LenetPool_2_2_shape _ _ _ _ _ b c H W Hinit HH HW) in Hs.
  destruct (W / 2 =? Z.to_nat in_f)%nat eqn:E; [|discriminate].
  apply Nat.eqb_eq in E. inversion Hs as [Hsy].
  split; [exact E|]. split; [reflexivity|].
  intros pre i j.
  destruct (LPPool2d_forward (sum_pool p) x) as [s|e] eqn:Hpool.
  - destruct (LenetPool_pooled_sum in_f out_f w0 b0 p x s Hinit Hpool)
      as [Hfw Hsum].
    rewrite Hfw in Hy. apply Linear_forward_Ok in Hy.
    destruct Hy as (_ & _ & ->). simpl data.
    change (pre ++ [i; j]) with (pre ++ [i] ++ [j]).
    rewrite app_assoc, Linear_data_snoc.
    apply LenetPool_init_Ok in Hinit. destruct Hinit as (_ & _ & Hp).
    simpl in Hp. subst p. simpl.
    f_equal. apply Rsum_ext. intros k _.
    rewrite <- app_assoc. simpl app. rewrite Hsum. reflexivity.
  - exfalso. apply LenetPool_init_Ok in Hinit.
    destruct Hinit as (_ & _ & Hp). simpl in Hp. subst p.
    unfold LenetPool_forward in Hy. simpl in Hy, Hpool.
    rewrite Hpool in Hy. discriminate.
Qed.

(** Against C6 as stated: the stage S2 of the Network maps an input of
    shape (1, 6, 28, 28) to an output of shape (1, 6, 14, 14), which is
    not (batch, out_features) = (1, 14); the flattened pooled width
    6 * 14 * 14 is not the in_features of the remap. *)
Lemma C6_counterexample :
  exists model y,
    Lenet_init 10 init0 = Ok model
    /\ LenetPool_forward (s2 model) (zeros [1; 6; 28; 28]%nat) = Ok y
    /\ shape y = [1; 6; 14; 14]%nat
    /\ shape y <> [1; 14]%nat
    /\ numel [6; 14; 14]%nat <> Z.to_nat (in_features (linear (s2 model))).
Proof.
  eexists. eexists. split; [reflexivity|]. split; [reflexivity|].
  split; [reflexivity|]. split; [discriminate|]. vm_compute. discriminate.
Qed.

Lemma C6_pool_remap_witness :
  exists y,
    LenetPool_forward (s2 (Lenet_build 10 init0)) (zeros [1; 6; 28; 28]%nat)
    = Ok y
    /\ (28 / 2)%nat = Z.to_nat 14
    /\ shape y = [1; 6; 28 / 2; Z.to_nat 14]%nat.
Proof.
  eexists. split; [reflexivity|].
  destruct (C6_pool_remap 14 14
              (init0 "s2.linear.weight") (init0 "s2.linear.bias")
              (s2 (Lenet_build 10 init0)) 1 6 28 28
              (zeros [1; 6; 28; 28]%nat) _ eq_refl eq_refl eq_refl)
    as (Hw & Hs & _).
  split; [exact Hw | exact Hs].
Defined.

(** C7. Final-layer linearity: for every setting of the weights and the
    bias of F7 and every input of width 84, the output of the final stage
    is the affine transform weight . input + bias of that input, and the
    Network returns it as it is: no nonlinearity follows F7. *)
Theorem C7_final_layer_affine
    (num_classes : Z) (init : ParamInit) (model : Lenet) :
  Lenet_init num_classes init = Ok model ->
  (forall v pre,
     shape v = pre ++ [84%nat] ->
     exists y,
       Linear_forward (f7 model) v = Ok y
       /\ shape y = pre ++ [Z.to_nat num_classes]
       /\ forall idx j,
            data y (idx ++ [j])
            = Rsum 84 (fun k => data v (idx ++ [k]) * init "f7.weight" [j; k])
              + init "f7.bias" [j])
  /\ (exists stages,
        layers model = stages ++ [Torch (M_Linear (f7 model))]
        /\ forall x,
             Lenet_forward model x
             = (h <- Sequential_forward Module_call stages x ;;
                Linear_forward (f7 model) h)).
Proof.
  intro Hinit. apply Lenet_init_Ok in Hinit. destruct Hinit as [_ ->].
  split.
  - intros v pre Hv.
    assert (Hs : Linear_shape (f7 (Lenet_build num_classes init)) (shape v)
                 = Ok (pre ++ [Z.to_nat num_classes])).
    { rewrite Hv. unfold Linear_shape.
      destruct (pre ++ [84%nat]) as [|d ds] eqn:E.
      - destruct pre; discriminate.
      - rewrite <- E, last_last, removelast_last. reflexivity. }
    unfold Linear_forward. rewrite Hs. simpl bind.
    eexists. split; [reflexivity|]. split; [reflexivity|].
    intros idx j. simpl data. rewrite Linear_data_snoc. reflexivity.
  - set (model := Lenet_build num_classes init).
    set (stages := removelast (layers model)).
    assert (E : layers model = stages ++ [Torch (M_Linear (f7 model))])
      by reflexivity.
    exists stages. split; [exact E|].
    intro x. unfold Lenet_forward. rewrite E.
    rewrite Sequential_forward_app.
    destruct (Sequential_forward Module_call stages x) as [h|e];
      cbn [bind Sequential_forward Module_call TorchModule_call];
      [|reflexivity].
    destruct (Linear_forward (f7 model) h); reflexivity.
Qed.

(** The manual computation: weights 1, bias 2, input entries 3 give
    84 * 3 + 2 = 254 in every class score. *)
Lemma C7_final_layer_affine_witness :
  exists y,
    Linear_forward (f7 (Lenet_build 10 init12)) threes_84 = Ok y
    /\ shape y = [1; 10]%nat
    /\ forall j, data y [0%nat; j] = 254.
Proof.
  assert (Hinit : Lenet_init 10 init12 = Ok (Lenet_build 10 init12))
    by (rewrite Lenet_init_eq; reflexivity).
  destruct (C7_final_layer_affine 10 init12 _ Hinit) as [Hv _].
  destruct (Hv threes_84 [1%nat] eq_refl) as (y & Hy & Hs & Hd).
  exists y. split; [exact Hy|]. split; [exact Hs|].
  intro j. change [0%nat; j] with ([0%nat] ++ [j]).
  rewrite (Hd [0%nat] j). unfold init12, threes_84. simpl data.
  simpl String.eqb. cbv iota. rewrite Rsum_const.
  rewrite INR_IZR_INZ. simpl Z.of_nat. lra.
Defined.





(** C10. For every input x of shape (b, 1, 32, 32) and every Network,
    applying the stages one at a time, as the loop of run_tests does over
    the layer list, returns the same tensor as one call of the forward
    pass on x.  The two are one function: they agree on every input,
    also where a stage raises, and run_tests as a whole returns what the
    forward pass of the Network it builds returns on the tensor it
    draws. *)
Theorem C10_stagewise_is_forward
    (b : nat) (num_classes : Z) (init : ParamInit) (model : Lenet)
    (x : Tensor) :
  Lenet_init num_classes init = Ok model ->
  shape x = [b; 1; 32; 32]%nat ->
  (exists y,
     Lenet_forward model x = Ok y
     /\ snd (run_tests_loop (layers model) x []) = Ok y)
  /\ (forall x0 out,
        snd (run_tests_loop (layers model) x0 out) = Lenet_forward model x0)
  /\ (forall shp randn,
        snd (run_tests shp num_classes randn init)
        = (x0 <- torch_empty shp randn ;; Lenet_forward model x0)).
Proof.
  intros Hinit Hx. split.
  - apply Lenet_init_Ok in Hinit. destruct Hinit as [_ ->].
    destruct (Lenet_forward_Ok b num_classes init x Hx) as (y & Hy & _).
    exists y. split; [exact Hy|].
    rewrite run_tests_loop_result. exact Hy.
  - split; [intros x0 out; apply run_tests_loop_result|].
    intros shp randn. unfold run_tests. rewrite Hinit.
    destruct (torch_empty shp randn) as [x0|e]; simpl; [|reflexivity].
    apply run_tests_loop_result.
Qed.

Lemma C10_stagewise_is_forward_witness :
  exists y,
    Lenet_forward (Lenet_build 10 init0) (zeros [1; 1; 32; 32]%nat) = Ok y
    /\ snd (run_tests_loop (layers (Lenet_build 10 init0))
                           (zeros [1; 1; 32; 32]%nat) []) = Ok y.
Proof.
  assert (Hinit : Lenet_init 10 init0 = Ok (Lenet_build 10 init0))
    by (rewrite Lenet_init_eq; reflexivity).
  exact (proj1 (C10_stagewise_is_forward 1 10 init0 _
                  (zeros [1; 1; 32; 32]%nat) Hinit eq_refl)).
Defined.


(* ================================================================== *)
(** * Further properties of the code *)

(* ================================================================== *)
(** ** Which input shapes the Network accepts *)

Section AcceptedShapes.

Lemma pool_out_2_2_eq (n : nat) :
  pool_out n 2 2 = if (2 <=? n)%nat then Ok (n / 2)%nat else Raise RuntimeError.
Proof.
  destruct (2 <=? n)%nat eqn:E.
  - apply Nat.leb_le in E. apply pool_out_2_2, E.
  - apply Nat.leb_gt in E. unfold pool_out. simpl orb. cbv iota.
    destruct (n <? 2)%nat eqn:E'; [reflexivity|]. apply Nat.ltb_ge in E'. lia.
Qed.

Lemma Conv2d_chw_eq (cv : Conv2d) (c h w : nat) :
  Conv2d_chw cv c h w
  = if ((c =? conv_in cv) && (conv_kh cv <=? h) && (conv_kw cv <=? w))%nat
    then Ok [conv_out cv; h - conv_kh cv + 1; w - conv_kw cv + 1]%nat
    else Raise RuntimeError.
Proof.
  unfold Conv2d_chw.
  destruct (c =? conv_in cv)%nat; simpl; [|reflexivity].
  rewrite !Nat.ltb_antisym.
  destruct (conv_kh cv <=? h)%nat, (conv_kw cv <=? w)%nat; reflexivity.
Qed.

Ltac arith_hyps :=
  repeat match goal with
         | H : (_ && _) = true |- _ => apply andb_prop in H; destruct H
         | H : (_ =? _)%nat = true |- _ => apply Nat.eqb_eq in H
         | H : (_ <=? _)%nat = true |- _ => apply Nat.leb_le in H
         | H : ?x = ?x |- _ => clear H
         end.

Ltac norm_pos :=
  repeat match goal with
         | |- context [Pos.to_nat ?p] =>
             let v := eval vm_compute in (Pos.to_nat p) in
             change (Pos.to_nat p) with v
         end.

(** Runs the shape checks of the stages one after the other, splitting on
    each check; what is left is the case where every check passed. *)
Ltac run_stages :=
  simpl layers; norm_pos;
  repeat first
    [ progress cbn -[Nat.leb Nat.eqb Nat.div Nat.sub Nat.add Nat.mul]
    | progress unfold pool_hw
    | rewrite Conv2d_chw_eq
    | rewrite pool_out_2_2_eq
    | match goal with
      | |- context [if ?c then Ok _ else Raise RuntimeError] =>
          destruct c eqn:?; [|try reflexivity]
      end ].

Lemma Lenet_shape_4d (num_classes : Z) (init : ParamInit) (b c H W : nat) :
  Sequential_shape Module_shape (layers (Lenet_build num_classes init))
                   [b; c; H; W]
  = if ((c =? 1) && (W =? 32) && (32 <=? H) && (H <=? 35))%nat
    then Ok [b; Z.to_nat num_classes]
    else Raise RuntimeError.
Proof.
  destruct ((c =? 1) && (W =? 32) && (32 <=? H) && (H <=? 35))%nat eqn:Hacc.
  - arith_hyps. subst c W.
    assert (HH : (H = 32 \/ H = 33 \/ H = 34 \/ H = 35)%nat) by lia.
    destruct HH as [-> | [-> | [-> | ->]]]; vm_compute; reflexivity.
  - run_stages.
    exfalso. apply not_true_iff_false in Hacc. apply Hacc.
    arith_hyps. rewrite !andb_true_iff, !Nat.eqb_eq, !Nat.leb_le.
    simpl (5 * 1)%nat in *.
    set (q1 := ((H - 5 + 1) / 2)%nat) in *.
    pose proof (Nat.div_mod_eq (H - 5 + 1) 2) as E1. fold q1 in E1.
    pose proof (Nat.mod_upper_bound (H - 5 + 1) 2 ltac:(discriminate)) as B1.
    set (q2 := ((q1 - 5 + 1) / 2)%nat) in *.
    pose proof (Nat.div_mod_eq (q1 - 5 + 1) 2) as E2. fold q2 in E2.
    pose proof (Nat.mod_upper_bound (q1 - 5 + 1) 2 ltac:(discriminate)) as B2.
    clearbody q1 q2. lia.
Qed.

Lemma Lenet_shape_3d (num_classes : Z) (init : ParamInit) (c H W : nat) :
  Sequential_shape Module_shape (layers (Lenet_build num_classes init))
                   [c; H; W]
  = if ((c =? 1) && (W =? 32) && (332 <=? H) && (H <=? 335))%nat
    then Ok [16%nat; Z.to_nat num_classes]
    else Raise RuntimeError.
Proof.
  destruct ((c =? 1) && (W =? 32) && (332 <=? H) && (H <=? 335))%nat eqn:Hacc.
  - arith_hyps. subst c W.
    assert (HH : (H = 332 \/ H = 333 \/ H = 334 \/ H = 335)%nat) by lia.
    destruct HH as [-> | [-> | [-> | ->]]]; vm_compute; reflexivity.
  - run_stages.
    exfalso. apply not_true_iff_false in Hacc. apply Hacc.
    arith_hyps. rewrite !andb_true_iff, !Nat.eqb_eq, !Nat.leb_le.
    simpl (5 * 1)%nat in *.
    set (q1 := ((H - 5 + 1) / 2)%nat) in *.
    pose proof (Nat.div_mod_eq (H - 5 + 1) 2) as E1. fold q1 in E1.
    pose proof (Nat.mod_upper_bound (H - 5 + 1) 2 ltac:(discriminate)) as B1.
    set (q2 := ((q1 - 5 + 1) / 2)%nat) in *.
    pose proof (Nat.div_mod_eq (q1 - 5 + 1) 2) as E2. fold q2 in E2.
    pose proof (Nat.mod_upper_bound (q1 - 5 + 1) 2 ltac:(discriminate)) as B2.
    clearbody q1 q2. lia.
Qed.

(** The first stage refuses every input that has neither 3 nor 4 axes. *)
Lemma Lenet_shape_other_rank (num_classes : Z) (init : ParamInit)
    (s : list nat) :
  List.length s <> 3%nat -> List.length s <> 4%nat ->
  Sequential_shape Module_shape (layers (Lenet_build num_classes init)) s
  = Raise RuntimeError.
Proof.
  intros H3 H4.
  destruct s as [|d1 [|d2 [|d3 [|d4 [|d5 ds]]]]]; try reflexivity;
    simpl in H3, H4; congruence.
Qed.

Lemma Lenet_forward_shape (model : Lenet) (x : Tensor) :
  fmap shape (Lenet_forward model x)
  = Sequential_shape Module_shape (layers model) (shape x).
Proof.
  apply (Sequential_forward_shape Module_call Module_shape Module_call_shape).
Qed.

End AcceptedShapes.

(** X1. The inputs with a batch axis that the Network accepts: a 4-D
    input (b, c, H, W) passes the forward pass exactly when c = 1, W = 32
    and 32 <= H <= 35, and the output then has shape (b, num_classes);
    every other 4-D input (a 28 x 28 image, three channels, a width other
    than 32) ends in a RuntimeError. *)
Theorem X1_forward_accepts_4d
    (num_classes : Z) (init : ParamInit) (model : Lenet)
    (b c H W : nat) (x : Tensor) :
  Lenet_init num_classes init = Ok model ->
  (1 <= b)%nat ->
  shape x = [b; c; H; W] ->
  ((c = 1 /\ W = 32 /\ 32 <= H <= 35)%nat ->
     exists y, Lenet_forward model x = Ok y
               /\ shape y = [b; Z.to_nat num_classes])
  /\ (~ (c = 1 /\ W = 32 /\ 32 <= H <= 35)%nat ->
        Lenet_forward model x = Raise RuntimeError).
Proof.
  intros Hinit _ Hx. apply Lenet_init_Ok in Hinit. destruct Hinit as [_ ->].
  pose proof (Lenet_forward_shape (Lenet_build num_classes init) x) as Hs.
  rewrite Hx, Lenet_shape_4d in Hs.
  destruct ((c =? 1) && (W =? 32) && (32 <=? H) && (H <=? 35))%nat eqn:E.
  - split; intro Hc.
    + apply fmap_shape_Ok, Hs.
    + exfalso. apply Hc.
      rewrite !andb_true_iff, !Nat.eqb_eq, !Nat.leb_le in E. lia.
  - split; intro Hc.
    + exfalso. apply not_true_iff_false in E. apply E.
      rewrite !andb_true_iff, !Nat.eqb_eq, !Nat.leb_le. lia.
    + apply fmap_shape_Raise, Hs.
Qed.

Lemma X1_forward_accepts_4d_witness :
  (exists y,
     Lenet_forward (Lenet_build 10 init0) (zeros [2; 1; 33; 32]%nat) = Ok y
     /\ shape y = [2; 10]%nat)
  /\ Lenet_forward (Lenet_build 10 init0) (zeros [1; 1; 28; 28]%nat)
     = Raise RuntimeError.
Proof.
  assert (Hinit : Lenet_init 10 init0 = Ok (Lenet_build 10 init0))
    by (rewrite Lenet_init_eq; reflexivity).
  split.
  - apply (X1_forward_accepts_4d 10 init0 _ 2 1 33 32
             (zeros [2; 1; 33; 32]%nat) Hinit); [lia | reflexivity | lia].
  - apply (X1_forward_accepts_4d 10 init0 _ 1 1 28 28
             (zeros [1; 1; 28; 28]%nat) Hinit); [lia | reflexivity | lia].
Defined.

(** X2. Inputs without a batch axis are not recognised as such: a 3-D
    input (c, H, W) runs through the stages with its channel axis in the
    place of the batch axis after Flatten, and is refused by F5 unless
    c = 1, W = 32 and 332 <= H <= 335, in which case the output has shape
    (16, num_classes).  A single (1, 32, 32) image, and every input that
    has neither 3 nor 4 axes, ends in a RuntimeError. *)
Theorem X2_forward_unbatched
    (num_classes : Z) (init : ParamInit) (model : Lenet) (x : Tensor) :
  Lenet_init num_classes init = Ok model ->
  List.length (shape x) <> 4%nat ->
  (forall H,
     shape x = [1; H; 32]%nat -> (332 <= H <= 335)%nat ->
     exists y, Lenet_forward model x = Ok y
               /\ shape y = [16%nat; Z.to_nat num_classes])
  /\ ((forall H, shape x = [1; H; 32]%nat -> ~ (332 <= H <= 335)%nat) ->
        Lenet_forward model x = Raise RuntimeError).
Proof.
  intros Hinit H4. apply Lenet_init_Ok in Hinit. destruct Hinit as [_ ->].
  pose proof (Lenet_forward_shape (Lenet_build num_classes init) x) as Hs.
  split.
  - intros H Hx HH. rewrite Hx, Lenet_shape_3d in Hs.
    replace ((1 =? 1) && (32 =? 32) && (332 <=? H) && (H <=? 335))%nat
      with true in Hs.
    + apply fmap_shape_Ok, Hs.
    + symmetry. rewrite !andb_true_iff, !Nat.eqb_eq, !Nat.leb_le. lia.
  - intro Hno. apply fmap_shape_Raise. rewrite Hs.
    destruct (Nat.eq_dec (List.length (shape x)) 3) as [H3|H3].
    + destruct (shape x) as [|c [|H [|W [|d ds]]]] eqn:Hx; try discriminate.
      rewrite Lenet_shape_3d.
      destruct ((c =? 1) && (W =? 32) && (332 <=? H) && (H <=? 335))%nat
        eqn:E; [|reflexivity].
      exfalso. rewrite !andb_true_iff, !Nat.eqb_eq, !Nat.leb_le in E.
      destruct E as [[[-> ->] Hlo] Hhi].
      apply (Hno H eq_refl). lia.
    + apply Lenet_shape_other_rank; assumption.
Qed.

Lemma X2_forward_unbatched_witness :
  Lenet_forward (Lenet_build 10 init0) (zeros [1; 32; 32]%nat)
  = Raise RuntimeError.
Proof.
  assert (Hinit : Lenet_init 10 init0 = Ok (Lenet_build 10 init0))
    by (rewrite Lenet_init_eq; reflexivity).
  apply (X2_forward_unbatched 10 init0 _ (zeros [1; 32; 32]%nat) Hinit).
  - simpl. lia.
  - intros H Hx. simpl in Hx. inversion Hx. lia.
Defined.

(* ================================================================== *)
(** ** The samples of a batch are processed independently *)

Section BatchSlices.















End BatchSlices.





(* ================================================================== *)
(** ** Sums, signs and bounds *)

Section SumFacts.

Lemma Rsum_opp (n : nat) (f : nat -> R) :
  Rsum n (fun k => - f k) = - Rsum n f.
Proof.
  induction n as [|n IH]; simpl; [lra|]. rewrite IH. lra.
Qed.




Lemma tanh_neg (x : R) : tanh (- x) = - tanh x.
Proof.
  rewrite !tanh_exp, Ropp_involutive.
  pose proof (exp_pos x). pose proof (exp_pos (- x)).
  field. lra.
Qed.



End SumFacts.



(** X6. The Scaled-Activation unit is an odd function of its input:
    negating the input negates every entry of the output (the linear map
    S has no bias and tanh is odd). *)
Theorem X6_activation_odd
    (in_f out_f : Z) (w0 : list nat -> R) (m : LenetSigmoid)
    (x y : Tensor) :
  LenetSigmoid_init in_f out_f w0 = Ok m ->
  LenetSigmoid_forward m x = Ok y ->
  exists y',
    LenetSigmoid_forward m (tensor_neg x) = Ok y'
    /\ shape y' = shape y
    /\ forall idx, data y' idx = - data y idx.
Proof.
  intros Hinit Hy.
  apply LenetSigmoid_init_Ok in Hinit. destruct Hinit as (_ & _ & ->).
  unfold LenetSigmoid_forward, Linear_forward in *. simpl shape in *.
  destruct (Linear_shape _ (shape x)) as [s|e]; simpl in *; [|discriminate].
  inversion Hy; subst y; clear Hy.
  eexists. split; [reflexivity|]. split; [reflexivity|].
  intro idx. simpl. unfold Linear_data. simpl.
  rewrite !Rplus_0_r.
  rewrite (Rsum_ext _ _ (fun k => - (data x (removelast idx ++ [k])
                                      * w0 [last idx 0%nat; k])))
    by (intros k _; lra).
  rewrite Rsum_opp, tanh_neg. lra.
Qed.

Lemma X6_activation_odd_witness :
  exists y y',
    LenetSigmoid_forward (a6 (Lenet_build 10 init12)) threes_84 = Ok y
    /\ LenetSigmoid_forward (a6 (Lenet_build 10 init12))
                            (tensor_neg threes_84) = Ok y'
    /\ forall idx, data y' idx = - data y idx.
Proof.
  destruct (X6_activation_odd 84 84 (init12 "a6.S.weight")
              (a6 (Lenet_build 10 init12)) threes_84 _ eq_refl eq_refl)
    as (y' & Hy' & _ & Hd).
  eexists. exists y'. split; [reflexivity|]. split; [exact Hy'|].
  exact Hd.
Defined.

(* ================================================================== *)
(** ** Pooling with any window and stride *)

Section PoolAnyWindow.


End PoolAnyWindow.



(* ================================================================== *)
(** ** What run_tests prints *)

Section RunTests.


End RunTests.



(** X10. The parameters handed to the optimiser: a constructed Network
    has 20 parameter tensors holding 83657 + 85 * num_classes learnable
    scalars in all (84507 for ten classes); 22561 of them are the slope
    matrices S of the six Scaled-Activation units, and the scale A is not
    among the parameters. *)
Theorem X10_parameter_count
    (num_classes : Z) (init : ParamInit) (model : Lenet) :
  Lenet_init num_classes init = Ok model ->
  List.length (Lenet_parameters model) = 20%nat
  /\ Z.of_nat (num_parameters (Lenet_parameters model))
     = (83657 + 85 * num_classes)%Z
  /\ Z.of_nat (num_parameters
                 (flat_map (fun a => Linear_parameters (S_ a))
                    [a1 model; a2 model; a3 model; a4 model; a5 model;
                     a6 model]))
     = 22561%Z.
Proof.
  intro Hinit. apply Lenet_init_Ok in Hinit. destruct Hinit as [Hnc ->].
  split; [reflexivity|]. split.
  - unfold Lenet_parameters, num_parameters. simpl layers.
    cbn [flat_map Module_parameters TorchModule_parameters Linear_parameters
         Conv2d_parameters pool_layers S_ weight bias conv_weight conv_bias
         app fold_right shape numel map a1 a2 a3 a4 a5 a6].
    rewrite ?Nat2Z.inj_add, ?Nat2Z.inj_mul, ?positive_nat_Z, ?Z2Nat.id by lia.
    change (Z.of_nat 0) with 0%Z; change (Z.of_nat 1) with 1%Z;
      change (Z.of_nat 5) with 5%Z; change (Z.of_nat 6) with 6%Z;
      change (Z.of_nat 16) with 16%Z.
    lia.
  - unfold num_parameters, Lenet_build.
    cbn [flat_map Module_parameters TorchModule_parameters Linear_parameters
         Conv2d_parameters pool_layers S_ weight bias conv_weight conv_bias
         app fold_right shape numel map a1 a2 a3 a4 a5 a6].
    rewrite ?Nat2Z.inj_add, ?Nat2Z.inj_mul, ?positive_nat_Z, ?Z2Nat.id by lia.
    change (Z.of_nat 0) with 0%Z; change (Z.of_nat 1) with 1%Z;
      change (Z.of_nat 5) with 5%Z; change (Z.of_nat 6) with 6%Z;
      change (Z.of_nat 16) with 16%Z.
    lia.
Qed.

Lemma X10_parameter_count_witness :
  Z.of_nat (num_parameters (Lenet_parameters (Lenet_build 10 init0)))
  = 84507%Z.
Proof.
  assert (Hinit : Lenet_init 10 init0 = Ok (Lenet_build 10 init0))
    by (rewrite Lenet_init_eq; reflexivity).
  exact (proj1 (proj2 (X10_parameter_count 10 init0 _ Hinit))).
Defined.

(* ================================================================== *)
(** ** Rows below the 32nd *)

Section ExtraRows.

(** Before Flatten, the entries of the output of a stage are computed from
    the entries of its input alone, not from its shape. *)
Lemma TorchModule_call_data (m : TorchModule) (x x' y y' : Tensor) :
  keeps_axes_T m = true ->
  data x = data x' ->
  TorchModule_call m x = Ok y ->
  TorchModule_call m x' = Ok y' ->
  data y = data y'.
Proof.
  intros Hm Hd Hy Hy'. destruct m as [c|l|p| |]; simpl in *;
    try discriminate.
  - unfold Conv2d_forward in *.
    destruct (Conv2d_shape c (shape x)); [|discriminate].
    destruct (Conv2d_shape c (shape x')); [|discriminate].
    simpl in *. inversion Hy; inversion Hy'; subst. simpl.
    unfold Conv2d_data. rewrite Hd. reflexivity.
  - unfold Linear_forward in *.
    destruct (Linear_shape l (shape x)); [|discriminate].
    destruct (Linear_shape l (shape x')); [|discriminate].
    simpl in *. inversion Hy; inversion Hy'; subst. simpl.
    unfold Linear_data. rewrite Hd. reflexivity.
  - unfold LPPool2d_forward, lp_pool2d, avg_pool2d in *. simpl shape in *.
    destruct (avg_pool2d_shape _ _ (shape x)); [|discriminate].
    destruct (avg_pool2d_shape _ _ (shape x')); [|discriminate].
    simpl in *. inversion Hy; inversion Hy'; subst. simpl.
    unfold avg_pool2d_data. simpl. rewrite Hd. reflexivity.
  - unfold Tanh_forward in *. inversion Hy; inversion Hy'; subst. simpl.
    rewrite Hd. reflexivity.
Qed.

Lemma Sequential_forward_data {M : Type}
    (call : M -> Tensor -> result Tensor) (keeps : M -> bool)
    (Hcall : forall m x x' y y',
        keeps m = true -> data x = data x' ->
        call m x = Ok y -> call m x' = Ok y' -> data y = data y')
    (ms : list M) :
  forallb keeps ms = true ->
  forall x x' y y',
    data x = data x' ->
    Sequential_forward call ms x = Ok y ->
    Sequential_forward call ms x' = Ok y' ->
    data y = data y'.
Proof.
  induction ms as [|m rest IH]; intros Hk x x' y y' Hd Hy Hy'; simpl in *.
  - inversion Hy; inversion Hy'; subst. exact Hd.
  - apply andb_prop in Hk. destruct Hk as [Hm Hrest].
    destruct (call m x) as [z|e] eqn:Ez; [|discriminate].
    destruct (call m x') as [z'|e] eqn:Ez'; [|discriminate].
    apply (IH Hrest z z' y y'); auto.
    apply (Hcall m x x' z z'); auto.
Qed.

Lemma Module_call_data (m : Module) (x x' y y' : Tensor) :
  keeps_axes m = true ->
  data x = data x' ->
  Module_call m x = Ok y ->
  Module_call m x' = Ok y' ->
  data y = data y'.
Proof.
  intros Hm Hd Hy Hy'. destruct m as [t|p|a]; simpl in *.
  - eapply TorchModule_call_data; eassumption.
  - unfold LenetPool_forward in *.
    eapply (Sequential_forward_data TorchModule_call keeps_axes_T
              TorchModule_call_data); eassumption.
  - unfold LenetSigmoid_forward, Linear_forward in *.
    destruct (Linear_shape (S_ a) (shape x)); [|discriminate].
    destruct (Linear_shape (S_ a) (shape x')); [|discriminate].
    simpl in *. inversion Hy; inversion Hy'; subst. simpl.
    unfold Linear_data. rewrite Hd. reflexivity.
Qed.

Lemma Tensor_eq (x y : Tensor) :
  shape x = shape y -> data x = data y -> x = y.
Proof. destruct x, y; simpl; intros -> ->; reflexivity. Qed.

(** The eight stages before Flatten bring every accepted height to 5. *)
Lemma Lenet_shape_before_Flatten (num_classes : Z) (init : ParamInit)
    (b H : nat) :
  (32 <= H <= 35)%nat ->
  Sequential_shape Module_shape
    (firstn 8 (layers (Lenet_build num_classes init))) [b; 1; H; 32]%nat
  = Ok [b; 16; 5; 5]%nat.
Proof.
  intro HH.
  assert (E : (H = 32 \/ H = 33 \/ H = 34 \/ H = 35)%nat) by lia.
  destruct E as [-> | [-> | [-> | ->]]]; vm_compute; reflexivity.
Qed.

(** The forward pass reads the first 32 rows only. *)
Lemma Lenet_forward_crop (num_classes : Z) (init : ParamInit)
    (b H : nat) (x : Tensor) :
  shape x = [b; 1; H; 32]%nat ->
  (32 <= H <= 35)%nat ->
  Lenet_forward (Lenet_build num_classes init) x
  = Lenet_forward (Lenet_build num_classes init) (crop_rows 32 x).
Proof.
  intros Hx HH.
  set (model := Lenet_build num_classes init).
  set (front := firstn 8 (layers model)).
  set (back := skipn 8 (layers model)).
  assert (E : layers model = front ++ back) by reflexivity.
  assert (Hk : forallb keeps_axes front = true) by reflexivity.
  assert (Hc : crop_rows 32 x = mkTensor [b; 1; 32; 32]%nat (data x))
    by (unfold crop_rows; rewrite Hx; reflexivity).
  unfold Lenet_forward. rewrite E, !Sequential_forward_app.
  pose proof (Sequential_forward_shape Module_call Module_shape
                Module_call_shape front x) as Hs.
  pose proof (Sequential_forward_shape Module_call Module_shape
                Module_call_shape front (crop_rows 32 x)) as Hs'.
  rewrite Hc in Hs' at 2. simpl shape in Hs'. rewrite Hx in Hs.
  unfold front, model in Hs, Hs'.
  rewrite Lenet_shape_before_Flatten in Hs by exact HH.
  rewrite Lenet_shape_before_Flatten in Hs' by lia.
  fold model in Hs, Hs'. fold front in Hs, Hs'.
  apply fmap_shape_Ok in Hs, Hs'.
  destruct Hs as (h & Eh & Sh). destruct Hs' as (h' & Eh' & Sh').
  rewrite Eh, Eh'. simpl bind.
  replace h' with h; [reflexivity|].
  apply Tensor_eq; [congruence|].
  apply (Sequential_forward_data Module_call keeps_axes Module_call_data
           front Hk x (crop_rows 32 x) h h'); auto.
  rewrite Hc. reflexivity.
Qed.

End ExtraRows.

(** X11. Rows below the 32nd are ignored: an accepted input with 33, 34 or
    35 rows gives exactly the output of its first 32 rows, and two
    accepted inputs that hold the same values in their first 32 rows give
    outputs that hold the same values. *)
Theorem X11_extra_rows_ignored
    (num_classes : Z) (init : ParamInit) (model : Lenet)
    (b H H' : nat) (x x' : Tensor) :
  Lenet_init num_classes init = Ok model ->
  shape x = [b; 1; H; 32]%nat ->
  shape x' = [b; 1; H'; 32]%nat ->
  (32 <= H <= 35)%nat ->
  (32 <= H' <= 35)%nat ->
  Lenet_forward model x = Lenet_forward model (crop_rows 32 x)
  /\ (same_tensor (crop_rows 32 x) (crop_rows 32 x') ->
      exists y y',
        Lenet_forward model x = Ok y
        /\ Lenet_forward model x' = Ok y'
        /\ same_tensor y y').
Proof.
  intros Hinit Hx Hx' HH HH'.
  apply Lenet_init_Ok in Hinit. destruct Hinit as [_ ->].
  split; [apply (Lenet_forward_crop num_classes init b H x Hx HH)|].
  intro Hsame.
  rewrite (Lenet_forward_crop num_classes init b H x Hx HH).
  rewrite (Lenet_forward_crop num_classes init b H' x' Hx' HH').
  assert (Hc : shape (crop_rows 32 x) = [b; 1; 32; 32]%nat)
    by (unfold crop_rows; rewrite Hx; reflexivity).
  destruct (Lenet_forward_Ok b num_classes init (crop_rows 32 x) Hc)
    as (y & Hy & _).
  destruct (Lenet_forward_same _ _ _ (crop_rows 32 x') y
              (same_model_refl num_classes init) Hsame Hy)
    as (y' & Hy' & Hyy).
  exists y, y'. auto.
Qed.

Lemma X11_extra_rows_ignored_witness :
  Lenet_forward (Lenet_build 10 init0) (zeros [1; 1; 34; 32]%nat)
  = Lenet_forward (Lenet_build 10 init0)
                  (crop_rows 32 (zeros [1; 1; 34; 32]%nat)).
Proof.
  assert (Hinit : Lenet_init 10 init0 = Ok (Lenet_build 10 init0))
    by (rewrite Lenet_init_eq; reflexivity).
  apply (X11_extra_rows_ignored 10 init0 _ 1 34 34
           (zeros [1; 1; 34; 32]%nat) (zeros [1; 1; 34; 32]%nat) Hinit
           eq_refl eq_refl); lia.
Defined.
